(** * OpenTelemetry service: factories, example components and the
      Prometheus scrape transaction

    A shallow embedding of
    - [receiver/prometheusreceiver/internal/transaction.go] (the scrape
      transaction and [createNode]),
    - the Jaeger gRPC exporter factory ([jaegergrpcexporter.Factory]),
    - the example components of package [config] (example factories and
      [MultiProtoReceiver]),
    followed by the properties established about them.

    Go strings are byte sequences: they are [string] (lists of [ascii]).
    A [map[string]T] is a [gmap string T].  A [float64] is a primitive
    binary64 [float].  Pointers that may be nil are [option]s. *)

From Stdlib Require Import ZArith String Ascii List Bool Lia.
From Stdlib Require Import Floats.PrimFloat.
From stdpp Require Import base strings gmap list.

Local Open Scope Z_scope.

(** ** Go library functions used by the sources *)

Module strings.

(** [strings.HasPrefix(s, prefix)]. *)
Fixpoint HasPrefix (s prefix : string) : bool :=
  match prefix, s with
  | EmptyString, _ => true
  | String p prefix', String c s' =>
      if Ascii.eqb c p then HasPrefix s' prefix' else false
  | String _ _, EmptyString => false
  end.

(** The loop of [genSplit(s, sep, 0, -1)] for a non-empty [sep], read from
    left to right.  [skip] counts the bytes of a separator occurrence that
    are still to be stepped over; otherwise the current byte either starts
    an occurrence of [sep] (the current piece ends here) or belongs to the
    current piece. *)
Fixpoint genSplit (skip : nat) (s sep : string) : list string :=
  match s with
  | EmptyString => [EmptyString]
  | String c s' =>
      match skip with
      | S k => genSplit k s' sep
      | O =>
          if HasPrefix s sep
          then EmptyString :: genSplit (Nat.pred (String.length sep)) s' sep
          else match genSplit O s' sep with
               | piece :: pieces => String c piece :: pieces
               | [] => [String c EmptyString]
               end
      end
  end.

(** [explode]: one piece per byte (Go cuts at UTF-8 sequences; the two
    agree on ASCII text). Only reached with an empty separator, which the
    sources never pass. *)
Fixpoint explode (s : string) : list string :=
  match s with
  | EmptyString => []
  | String c s' => String c EmptyString :: explode s'
  end.

(** [strings.Split(s, sep)]. *)
Definition Split (s sep : string) : list string :=
  match sep with
  | EmptyString => explode s
  | String _ _ => genSplit O s sep
  end.

End strings.

(** ** Errors

    Go errors are compared by identity.  The package-level error values of
    the sources are constructors; [fmt_Errorf] carries the formatted
    message, and [foreign] stands for an error handed back by a
    collaborator (metadata service, metric builder, downstream consumer). *)

Inductive error : Type :=
| errMetricNameNotFound
| errTransactionAborted
| errNoJobInstance
| ErrDataTypeIsNotSupported
| fmt_Errorf (msg : string)
| foreign (msg : string).

(** The result of running a Go function: it returns, or it panics (nil
    dereference, failed type assertion). *)
Inductive outcome (A : Type) : Type :=
| Returned (a : A)
| Panicked.
Arguments Returned {A} a.
Arguments Panicked {A}.

(** ** [commonpb.Node] and [createNode] *)

Module commonpb.

Record ServiceInfo := { Name : string }.
Record ProcessIdentifier := { HostName : string }.

(** The fields of [commonpb.Node] that the receiver fills in. *)
Record Node := {
  Identifier : option ProcessIdentifier;
  ServiceInfo_ : option ServiceInfo;
  Attributes : gmap string string
}.

End commonpb.

Definition portAttr : string := "port".
Definition schemeAttr : string := "scheme".

(** [splitted[0]] and [splitted[1]] are read through [nth] with the
    bounds the source guarantees: [strings.Split] with a non-empty
    separator never returns an empty slice, and index 1 is guarded by
    [len(splitted) >= 2]. *)
Definition createNode (job instance scheme : string) : commonpb.Node :=
  let splitted := strings.Split instance ":" in
  let host := nth 0 splitted EmptyString in
  let port := if (2 <=? Z.of_nat (List.length splitted))
              then nth 1 splitted EmptyString
              else "80"%string in
  {| commonpb.ServiceInfo_ := Some {| commonpb.Name := job |};
     commonpb.Identifier := Some {| commonpb.HostName := host |};
     commonpb.Attributes := <[schemeAttr := scheme]> (<[portAttr := port]> ∅) |}.

(** [consumerdata.MetricsData], over the type of the metrics it carries. *)
Module consumerdata.

Record MetricsData (Metric : Type) := {
  Node : option commonpb.Node;
  Metrics : list Metric
}.
Arguments Node {Metric} _.
Arguments Metrics {Metric} _.

End consumerdata.

(** ** Prometheus labels and the reserved label names *)

Module labels.

Record Label := { Name : string; Value : string }.

(** [labels.Labels]: a slice of labels. *)
Definition Labels := list Label.

(** [Labels.Get(name)]: the value of the first label called [name], the
    empty string when there is none. *)
Fixpoint Get (ls : Labels) (name : string) : string :=
  match ls with
  | [] => EmptyString
  | l :: ls' => if String.eqb (Name l) name then Value l else Get ls' name
  end.

End labels.

Module model.
Definition JobLabel : string := "job".
Definition InstanceLabel : string := "instance".
Definition SchemeLabel : string := "__scheme__".
End model.

(** [math.IsNaN(f)] is [f != f]. *)
Definition IsNaN (f : float) : bool := negb (PrimFloat.eqb f f).

(** [int64] arithmetic wraps around. *)
Definition wrap64 (z : Z) : Z := (z + 2 ^ 63) mod 2 ^ 64 - 2 ^ 63.

(** [context.Context], as far as the transaction looks at it: [Done] tells
    whether the channel [ctx.Done()] is closed (the context is cancelled)
    when a method of the transaction runs. *)
Record Context := { Done : bool }.

(** ** The collaborators of the transaction

    The metadata service, the metric builder, the metrics adjuster with its
    jobs map and the downstream consumer are declared outside
    [transaction.go]; the transaction only calls them.  They are the
    fields of this class.
    - [Heap] is the state of the objects the transaction shares with the
      rest of the receiver through pointers (the jobs map and its time
      series); [AdjustMetrics h jm job instance logger ms] is
      [NewMetricsAdjuster(jm.get(job, instance), logger).AdjustMetrics(ms)].
    - A metric builder is owned by one transaction, so [AddDataPoint] and
      [Build] return the builder they leave behind.
    - [ConsumeMetricsData sink calls ctx md] is the answer of the consumer
      to a call made after the earlier calls [calls]. *)
Class Collaborators := {
  Logger : Type;
  Metric : Type;
  MetadataCache : Type;
  SharedLabels : MetadataCache -> labels.Labels;
  MetadataService : Type;
  MetadataService_Get :
    MetadataService -> string -> string -> MetadataCache + error;
  metricBuilder : Type;
  newMetricBuilder : MetadataCache -> Logger -> metricBuilder;
  AddDataPoint :
    metricBuilder -> labels.Labels -> Z -> float -> metricBuilder * option error;
  Build :
    metricBuilder -> metricBuilder * (list Metric * Z * Z * option error);
  Heap : Type;
  JobsMap : Type;
  AdjustMetrics :
    Heap -> JobsMap -> string -> string -> Logger -> list Metric ->
    Heap * list Metric;
  MetricsConsumer : Type;
  ConsumeMetricsData :
    MetricsConsumer -> list (Context * consumerdata.MetricsData Metric) ->
    Context -> consumerdata.MetricsData Metric -> option error
}.

(** ** The scrape transaction *)

Section Transaction.

Context `{C : Collaborators}.

Record transaction := {
  id : Z;
  ctx : Context;
  isNew : bool;
  sink : MetricsConsumer;
  job : string;
  instance : string;
  jobsMap : option JobsMap;
  ms : MetadataService;
  node : option commonpb.Node;
  metricBuilder_ : option metricBuilder;
  logger : Logger
}.

(** What the transaction changes outside itself: the package counter
    [idSeq], the objects behind its pointers, the calls received by the
    downstream consumer (latest first) and the receiver statistics
    recorded by [observability.RecordMetricsForMetricsReceiver]. *)
Record World := {
  idSeq : Z;
  heap : Heap;
  consumed : list (Context * consumerdata.MetricsData Metric);
  recorded : list (Context * Z * Z)
}.

(** A method of [*transaction]: it reads and updates the receiver and the
    world, and returns or panics. *)
Definition M (A : Type) : Type :=
  transaction -> World -> outcome (A * transaction * World).

Definition ret {A} (a : A) : M A := fun tr w => Returned (a, tr, w).

Definition bind {A B} (m : M A) (k : A -> M B) : M B :=
  fun tr w =>
    match m tr w with
    | Returned (a, tr', w') => k a tr' w'
    | Panicked => Panicked
    end.

Definition panic {A} : M A := fun _ _ => Panicked.
Definition this : M transaction := fun tr w => Returned (tr, tr, w).
Definition modify (f : transaction -> transaction) : M unit :=
  fun tr w => Returned (tt, f tr, w).

Local Notation "x <- m ;; k" := (bind m (fun x => k))
  (at level 100, m at next level, right associativity).
Local Notation "m ;;; k" := (bind m (fun _ => k))
  (at level 100, right associativity).

(** Assignments to the fields of the receiver. *)
Definition set_job (v : string) (tr : transaction) : transaction :=
  {| id := id tr; ctx := ctx tr; isNew := isNew tr; sink := sink tr;
     job := v; instance := instance tr; jobsMap := jobsMap tr; ms := ms tr;
     node := node tr; metricBuilder_ := metricBuilder_ tr;
     logger := logger tr |}.

Definition set_instance (v : string) (tr : transaction) : transaction :=
  {| id := id tr; ctx := ctx tr; isNew := isNew tr; sink := sink tr;
     job := job tr; instance := v; jobsMap := jobsMap tr; ms := ms tr;
     node := node tr; metricBuilder_ := metricBuilder_ tr;
     logger := logger tr |}.

Definition set_node (v : option commonpb.Node) (tr : transaction)
  : transaction :=
  {| id := id tr; ctx := ctx tr; isNew := isNew tr; sink := sink tr;
     job := job tr; instance := instance tr; jobsMap := jobsMap tr;
     ms := ms tr; node := v; metricBuilder_ := metricBuilder_ tr;
     logger := logger tr |}.

Definition set_metricBuilder (v : option metricBuilder) (tr : transaction)
  : transaction :=
  {| id := id tr; ctx := ctx tr; isNew := isNew tr; sink := sink tr;
     job := job tr; instance := instance tr; jobsMap := jobsMap tr;
     ms := ms tr; node := node tr; metricBuilder_ := v;
     logger := logger tr |}.

Definition set_isNew (v : bool) (tr : transaction) : transaction :=
  {| id := id tr; ctx := ctx tr; isNew := v; sink := sink tr;
     job := job tr; instance := instance tr; jobsMap := jobsMap tr;
     ms := ms tr; node := node tr; metricBuilder_ := metricBuilder_ tr;
     logger := logger tr |}.

(** [atomic.AddInt64(&idSeq, 1)] and the fresh transaction. *)
Definition newTransaction (ctx0 : Context) (jobsMap0 : option JobsMap)
    (ms0 : MetadataService) (sink0 : MetricsConsumer) (logger0 : Logger)
    (w : World) : transaction * World :=
  let id0 := wrap64 (idSeq w + 1) in
  ({| id := id0; ctx := ctx0; isNew := true; sink := sink0;
      job := EmptyString; instance := EmptyString; jobsMap := jobsMap0;
      ms := ms0; node := None; metricBuilder_ := None; logger := logger0 |},
   {| idSeq := id0; heap := heap w; consumed := consumed w;
      recorded := recorded w |}).

Definition initTransaction (ls : labels.Labels) : M (option error) :=
  let job0 := labels.Get ls model.JobLabel in
  let instance0 := labels.Get ls model.InstanceLabel in
  if String.eqb job0 EmptyString || String.eqb instance0 EmptyString
  then ret (Some errNoJobInstance)
  else
    tr <- this ;;
    (* discover the binding target when this method is called for the
       first time during a transaction *)
    match MetadataService_Get (ms tr) job0 instance0 with
    | inr err => ret (Some err)
    | inl mc =>
        match jobsMap tr with
        | Some _ => modify (set_job job0) ;;; modify (set_instance instance0)
        | None => ret tt
        end ;;;
        modify (set_node
                  (Some (createNode job0 instance0
                           (labels.Get (SharedLabels mc) model.SchemeLabel)))) ;;;
        modify (set_metricBuilder (Some (newMetricBuilder mc (logger tr)))) ;;;
        modify (set_isNew false) ;;;
        ret None
    end.

(** [tr.metricBuilder.AddDataPoint(ls, t, v)]: a nil builder panics. *)
Definition metricBuilder_AddDataPoint (ls : labels.Labels) (t : Z)
    (v : float) : M (option error) :=
  tr <- this ;;
  match metricBuilder_ tr with
  | None => panic
  | Some b =>
      let '(b', err) := AddDataPoint b ls t v in
      modify (set_metricBuilder (Some b')) ;;; ret err
  end.

(** Returning an error from this method can cause the whole appending
    transaction to be aborted and fail. *)
Definition AddFast (ls : labels.Labels) (_ : Z) (t : Z) (v : float)
  : M (option error) :=
  if IsNaN v then ret None
  else
    tr <- this ;;
    if Done (ctx tr) then ret (Some errTransactionAborted)
    else
      err <- (if isNew tr then initTransaction ls else ret None) ;;
      match err with
      | Some e => ret (Some e)
      | None => metricBuilder_AddDataPoint ls t v
      end.

Definition Add (l : labels.Labels) (t : Z) (v : float)
  : M (Z * option error) :=
  err <- AddFast l 0 t v ;; ret (0, err).

(** [observability.RecordMetricsForMetricsReceiver]. *)
Definition RecordMetricsForMetricsReceiver (c : Context)
    (numTimeseries droppedTimeseries : Z) : M unit :=
  fun tr w =>
    Returned (tt, tr,
              {| idSeq := idSeq w; heap := heap w; consumed := consumed w;
                 recorded := (c, numTimeseries, droppedTimeseries)
                               :: recorded w |}).

(** [NewMetricsAdjuster(jm.get(job, instance), logger).AdjustMetrics(ms)]
    on the shared objects. *)
Definition adjust (jm : JobsMap) (job0 instance0 : string) (lg : Logger)
    (metrics : list Metric) : M (list Metric) :=
  fun tr w =>
    let '(h', metrics') :=
      AdjustMetrics (heap w) jm job0 instance0 lg metrics in
    Returned (metrics', tr,
              {| idSeq := idSeq w; heap := h'; consumed := consumed w;
                 recorded := recorded w |}).

(** [tr.sink.ConsumeMetricsData(tr.ctx, md)]: the call is received by the
    consumer, whose answer is returned. *)
Definition sink_ConsumeMetricsData (c : Context)
    (md : consumerdata.MetricsData Metric) : M (option error) :=
  fun tr w =>
    Returned (ConsumeMetricsData (sink tr) (consumed w) c md, tr,
              {| idSeq := idSeq w; heap := heap w;
                 consumed := (c, md) :: consumed w;
                 recorded := recorded w |}).

(** Submit metrics data to consumers. *)
Definition Commit : M (option error) :=
  tr <- this ;;
  if isNew tr then
    (* the scrape loop commits even if it never added a data point: the
       transaction has not been initialised *)
    ret None
  else
    match metricBuilder_ tr with
    | None => panic
    | Some b =>
        let '(b', (metrics, numTimeseries, droppedTimeseries, err)) :=
          Build b in
        modify (set_metricBuilder (Some b')) ;;;
        RecordMetricsForMetricsReceiver (ctx tr) numTimeseries
          droppedTimeseries ;;;
        match err with
        | Some e => ret (Some e)
        | None =>
            metrics' <- match jobsMap tr with
                        | Some jm =>
                            adjust jm (job tr) (instance tr) (logger tr)
                              metrics
                        | None => ret metrics
                        end ;;
            if 0 <? Z.of_nat (List.length metrics') then
              sink_ConsumeMetricsData (ctx tr)
                {| consumerdata.Node := node tr;
                   consumerdata.Metrics := metrics' |}
            else ret None
        end
    end.

Definition Rollback : M (option error) := ret None.

End Transaction.

(** ** [unicode/utf8] and [strconv.Quote], which [fmt] uses for [%q] *)

Definition byte_of (c : ascii) : Z := Z.of_N (N_of_ascii c).
Definition ascii_of (b : Z) : ascii := ascii_of_N (Z.to_N (b mod 256)).

Module utf8.

Definition RuneError : Z := 0xFFFD.
Definition RuneSelf : Z := 0x80.
Definition MaxRune : Z := 0x10FFFF.

Definition locb : Z := 0x80.
Definition hicb : Z := 0xBF.

(** Information about the first byte of a sequence: [xx] invalid, [as_]
    ASCII, otherwise the size in the low bits and the index of the
    accepted range of the second byte in the high ones. *)
Definition xx : Z := 0xF1.
Definition as_ : Z := 0xF0.
Definition s1 : Z := 0x02.
Definition s2 : Z := 0x13.
Definition s3 : Z := 0x03.
Definition s4 : Z := 0x23.
Definition s5 : Z := 0x34.
Definition s6 : Z := 0x04.
Definition s7 : Z := 0x44.

Definition first (b : Z) : Z :=
  if b <? 0x80 then as_
  else if b <? 0xC2 then xx
  else if b <? 0xE0 then s1
  else if b =? 0xE0 then s2
  else if b <? 0xED then s3
  else if b =? 0xED then s4
  else if b <? 0xF0 then s3
  else if b =? 0xF0 then s5
  else if b <? 0xF4 then s6
  else if b =? 0xF4 then s7
  else xx.

(** [acceptRanges[i]] as (lo, hi). *)
Definition acceptRanges (i : Z) : Z * Z :=
  if i =? 0 then (locb, hicb)
  else if i =? 1 then (0xA0, hicb)
  else if i =? 2 then (locb, 0x9F)
  else if i =? 3 then (0x90, hicb)
  else if i =? 4 then (locb, 0x8F)
  else (0, 0).

Definition maskx : Z := 0x3F.
Definition mask2 : Z := 0x1F.
Definition mask3 : Z := 0x0F.
Definition mask4 : Z := 0x07.

(** [utf8.DecodeRuneInString(s)]: the rune and its width in bytes. *)
Definition DecodeRuneInString (s : string) : Z * Z :=
  match s with
  | EmptyString => (RuneError, 0)
  | String c0 rest0 =>
      let b0 := byte_of c0 in
      let x := first b0 in
      if as_ <=? x then
        (if x =? as_ then b0 else RuneError, 1)
      else
        let sz := Z.land x 7 in
        let accept := acceptRanges (Z.shiftr x 4) in
        if Z.of_nat (String.length s) <? sz then (RuneError, 1)
        else
          match rest0 with
          | EmptyString => (RuneError, 1)
          | String c1 rest1 =>
              let b1 := byte_of c1 in
              if (b1 <? fst accept) || (snd accept <? b1) then (RuneError, 1)
              else if sz <=? 2 then
                (Z.lor (Z.shiftl (Z.land b0 mask2) 6) (Z.land b1 maskx), 2)
              else
                match rest1 with
                | EmptyString => (RuneError, 1)
                | String c2 rest2 =>
                    let b2 := byte_of c2 in
                    if (b2 <? locb) || (hicb <? b2) then (RuneError, 1)
                    else if sz <=? 3 then
                      (Z.lor (Z.lor (Z.shiftl (Z.land b0 mask3) 12)
                                (Z.shiftl (Z.land b1 maskx) 6))
                         (Z.land b2 maskx), 3)
                    else
                      match rest2 with
                      | EmptyString => (RuneError, 1)
                      | String c3 _ =>
                          let b3 := byte_of c3 in
                          if (b3 <? locb) || (hicb <? b3) then (RuneError, 1)
                          else
                            (Z.lor (Z.lor (Z.lor
                                      (Z.shiftl (Z.land b0 mask4) 18)
                                      (Z.shiftl (Z.land b1 maskx) 12))
                                      (Z.shiftl (Z.land b2 maskx) 6))
                               (Z.land b3 maskx), 4)
                      end
                end
          end
  end.

(** [utf8.ValidRune(r)]. *)
Definition ValidRune (r : Z) : bool :=
  ((0 <=? r) && (r <? 0xD800)) || ((0xDFFF <? r) && (r <=? MaxRune)).

(** [utf8.AppendRune(nil, r)]: the encoding of [r]. *)
Definition AppendRune (r : Z) : string :=
  let one (b : Z) := String (ascii_of b) EmptyString in
  let cont (v : Z) := String (ascii_of (Z.lor 0x80 (Z.land v maskx))) in
  if (0 <=? r) && (r <=? 0x7F) then one r
  else if (0 <=? r) && (r <=? 0x7FF) then
    String (ascii_of (Z.lor 0xC0 (Z.shiftr r 6))) (cont r EmptyString)
  else if negb (ValidRune r) then
    String (ascii_of 0xEF) (String (ascii_of 0xBF) (one 0xBD))
  else if r <=? 0xFFFF then
    String (ascii_of (Z.lor 0xE0 (Z.shiftr r 12)))
      (cont (Z.shiftr r 6) (cont r EmptyString))
  else
    String (ascii_of (Z.lor 0xF0 (Z.shiftr r 18)))
      (cont (Z.shiftr r 12) (cont (Z.shiftr r 6) (cont r EmptyString))).

End utf8.

Module strconv.
Section Quote.

(** Which runes above Latin-1 are printable is decided by tables of the
    Go library; the quoting below takes them as given. *)
Variable IsPrint_wide : Z -> bool.

(** [strconv.IsPrint(r)]: in Latin-1 the printable characters are the
    ones from space to tilde and from 0xA1 on, the soft hyphen apart. *)
Definition IsPrint (r : Z) : bool :=
  if r <=? 0xFF then
    if (0x20 <=? r) && (r <? 0x7F) then true
    else if (0xA1 <=? r) && (r <=? 0xFF) then negb (r =? 0xAD)
    else false
  else IsPrint_wide r.

(** [lowerhex[i]]. *)
Definition lowerhex (i : Z) : ascii :=
  nth (Z.to_nat i) (list_ascii_of_string "0123456789abcdef") "0"%char.

Definition quote : Z := 34.
Definition backslash : Z := 92.

Definition esc (c : ascii) : string :=
  String (ascii_of backslash) (String c EmptyString).

(** The digits [lowerhex[r>>s&0xF]] for [s] from [4*(n-1)] down to 0. *)
Fixpoint hexdigits (n : nat) (r : Z) : string :=
  match n with
  | O => EmptyString
  | S k =>
      String (lowerhex (Z.land (Z.shiftr r (4 * Z.of_nat k)) 0xF))
        (hexdigits k r)
  end.

(** [appendEscapedRune(nil, r, quote, false, false)] with the double
    quote as [quote]. *)
Definition appendEscapedRune (r : Z) : string :=
  if (r =? quote) || (r =? backslash) then esc (ascii_of r)
  else if IsPrint r then utf8.AppendRune r
  else if r =? 7 then esc "a"
  else if r =? 8 then esc "b"
  else if r =? 12 then esc "f"
  else if r =? 10 then esc "n"
  else if r =? 13 then esc "r"
  else if r =? 9 then esc "t"
  else if r =? 11 then esc "v"
  else if (r <? 0x20) || (r =? 0x7F) then
    String.append (esc "x") (hexdigits 2 (r mod 256))
  else if negb (utf8.ValidRune r) then
    String.append (esc "u") (hexdigits 4 utf8.RuneError)
  else if r <? 0x10000 then String.append (esc "u") (hexdigits 4 r)
  else String.append (esc "U") (hexdigits 8 r).

(** The loop of [appendQuotedWith]: [skip] counts the bytes of the rune
    just handled that are still to be stepped over ([s = s[width:]]). *)
Fixpoint quoteLoop (skip : nat) (s : string) : string :=
  match s with
  | EmptyString => EmptyString
  | String c s' =>
      match skip with
      | S k => quoteLoop k s'
      | O =>
          let b := byte_of c in
          let '(r, width) :=
            if utf8.RuneSelf <=? b then utf8.DecodeRuneInString s
            else (b, 1) in
          if (width =? 1) && (r =? utf8.RuneError) then
            String.append (String.append (esc "x") (hexdigits 2 b))
              (quoteLoop O s')
          else
            String.append (appendEscapedRune r)
              (quoteLoop (Z.to_nat (width - 1)) s')
      end
  end.

(** [strconv.Quote(s)], the text [fmt] prints for [%q]. *)
Definition Quote (s : string) : string :=
  String (ascii_of quote)
    (String.append (quoteLoop O s) (String (ascii_of quote) EmptyString)).

End Quote.
End strconv.

(** ** Component configs and factories *)

Module configmodels.

(** The methods every component config offers ([configmodels.Receiver],
    [Exporter], [Processor] and [Extension] share them); the source
    spells them out for [MultiProtoReceiver]. *)
Class NamedEntity (C : Type) := {
  Type_ : C -> string;
  SetType : string -> C -> C;
  Name : C -> string;
  SetName : string -> C -> C
}.

(** The settings structs of package [configmodels] are declared outside
    the sources at hand.  The specification has a component config carry
    its type string, its instance name and an enabled flag; the sources
    fill in [TypeVal], [NameVal] and, for receivers, [Endpoint], and read
    them back through [Type()] and [Name()]. *)
Module ReceiverSettings.
(** Modelled from the spec: [configmodels.ReceiverSettings], the settings
    every receiver config embeds. *)
Record t := {
  TypeVal : string; NameVal : string; Disabled : bool; Endpoint : string
}.
Definition zero : t :=
  {| TypeVal := EmptyString; NameVal := EmptyString; Disabled := false;
     Endpoint := EmptyString |}.
End ReceiverSettings.

Module ExporterSettings.
(** Modelled from the spec: [configmodels.ExporterSettings], the settings
    every exporter config embeds. *)
Record t := { TypeVal : string; NameVal : string; Disabled : bool }.
Definition zero : t :=
  {| TypeVal := EmptyString; NameVal := EmptyString; Disabled := false |}.
End ExporterSettings.

Module ProcessorSettings.
(** Modelled from the spec: [configmodels.ProcessorSettings], the settings
    every processor config embeds. *)
Record t := { TypeVal : string; NameVal : string; Disabled : bool }.
Definition zero : t :=
  {| TypeVal := EmptyString; NameVal := EmptyString; Disabled := false |}.
End ProcessorSettings.

Module ExtensionSettings.
(** Modelled from the spec: [configmodels.ExtensionSettings], the settings
    every extension config embeds. *)
Record t := { TypeVal : string; NameVal : string; Disabled : bool }.
Definition zero : t :=
  {| TypeVal := EmptyString; NameVal := EmptyString; Disabled := false |}.
End ExtensionSettings.

(** Modelled from the spec: the methods of [configmodels.ReceiverSettings];
    [Type()] and [Name()] return the type string and the name the
    settings carry, [SetType] and [SetName] stamp them. *)
#[global] Instance ReceiverSettings_entity : NamedEntity ReceiverSettings.t := {|
  Type_ rs := ReceiverSettings.TypeVal rs;
  SetType typeStr rs :=
    {| ReceiverSettings.TypeVal := typeStr;
       ReceiverSettings.NameVal := ReceiverSettings.NameVal rs;
       ReceiverSettings.Disabled := ReceiverSettings.Disabled rs;
       ReceiverSettings.Endpoint := ReceiverSettings.Endpoint rs |};
  Name rs := ReceiverSettings.NameVal rs;
  SetName name rs :=
    {| ReceiverSettings.TypeVal := ReceiverSettings.TypeVal rs;
       ReceiverSettings.NameVal := name;
       ReceiverSettings.Disabled := ReceiverSettings.Disabled rs;
       ReceiverSettings.Endpoint := ReceiverSettings.Endpoint rs |}
|}.

(** Modelled from the spec: the methods of [configmodels.ExporterSettings];
    [Type()] and [Name()] return the type string and the name the
    settings carry, [SetType] and [SetName] stamp them. *)
#[global] Instance ExporterSettings_entity : NamedEntity ExporterSettings.t := {|
  Type_ es := ExporterSettings.TypeVal es;
  SetType typeStr es :=
    {| ExporterSettings.TypeVal := typeStr;
       ExporterSettings.NameVal := ExporterSettings.NameVal es;
       ExporterSettings.Disabled := ExporterSettings.Disabled es |};
  Name es := ExporterSettings.NameVal es;
  SetName name es :=
    {| ExporterSettings.TypeVal := ExporterSettings.TypeVal es;
       ExporterSettings.NameVal := name;
       ExporterSettings.Disabled := ExporterSettings.Disabled es |}
|}.

(** Modelled from the spec: the methods of [configmodels.ProcessorSettings];
    [Type()] and [Name()] return the type string and the name the
    settings carry, [SetType] and [SetName] stamp them. *)
#[global] Instance ProcessorSettings_entity : NamedEntity ProcessorSettings.t := {|
  Type_ ps := ProcessorSettings.TypeVal ps;
  SetType typeStr ps :=
    {| ProcessorSettings.TypeVal := typeStr;
       ProcessorSettings.NameVal := ProcessorSettings.NameVal ps;
       ProcessorSettings.Disabled := ProcessorSettings.Disabled ps |};
  Name ps := ProcessorSettings.NameVal ps;
  SetName name ps :=
    {| ProcessorSettings.TypeVal := ProcessorSettings.TypeVal ps;
       ProcessorSettings.NameVal := name;
       ProcessorSettings.Disabled := ProcessorSettings.Disabled ps |}
|}.

(** Modelled from the spec: the methods of [configmodels.ExtensionSettings];
    [Type()] and [Name()] return the type string and the name the
    settings carry, [SetType] and [SetName] stamp them. *)
#[global] Instance ExtensionSettings_entity : NamedEntity ExtensionSettings.t := {|
  Type_ es := ExtensionSettings.TypeVal es;
  SetType typeStr es :=
    {| ExtensionSettings.TypeVal := typeStr;
       ExtensionSettings.NameVal := ExtensionSettings.NameVal es;
       ExtensionSettings.Disabled := ExtensionSettings.Disabled es |};
  Name es := ExtensionSettings.NameVal es;
  SetName name es :=
    {| ExtensionSettings.TypeVal := ExtensionSettings.TypeVal es;
       ExtensionSettings.NameVal := name;
       ExtensionSettings.Disabled := ExtensionSettings.Disabled es |}
|}.

(** A factory of any kind, as far as its config is concerned: its type
    string and its default config ([receiver.Factory],
    [exporter.Factory], [processor.Factory] and [extension.Factory] all
    have the two methods). *)
Class Factory (F C : Type) `{NamedEntity C} := {
  factory_Type : F -> string;
  CreateDefaultConfig : F -> C
}.

End configmodels.

(** ** The Jaeger gRPC exporter factory *)

Module jaegergrpcexporter.

Import configmodels.

(** The value of the type key in configuration. *)
Definition typeStr : string := "jaeger_grpc".

(** [Config]: the exporter settings, squashed, and the endpoint.  The
    struct is declared next to the factory, outside the sources at hand;
    these are the fields the factory fills in and reads. *)
Record Config := {
  ExporterSettings_ : ExporterSettings.t;
  Endpoint : string
}.

(** The methods of the embedded [ExporterSettings] are promoted. *)
#[global] Instance Config_entity : NamedEntity Config := {|
  Type_ c := Type_ (ExporterSettings_ c);
  SetType typeStr c :=
    {| ExporterSettings_ := SetType typeStr (ExporterSettings_ c);
       Endpoint := Endpoint c |};
  Name c := Name (ExporterSettings_ c);
  SetName name c :=
    {| ExporterSettings_ := SetName name (ExporterSettings_ c);
       Endpoint := Endpoint c |}
|}.

(** A value of the interface [configmodels.Exporter] as this package sees
    it: a [*Config], or something else (nil, or the config of another
    exporter), on which the type assertion to [*Config] panics. *)
Inductive Exporter : Type :=
| ConfigPtr (c : Config)
| OtherExporter.

(** Factory is the factory for Jaeger gRPC exporter. *)
Inductive Factory : Type := FactoryLit.

(** Type gets the type of the Exporter config created by this factory. *)
Definition Type_of (f : Factory) : string := typeStr.

(** CreateDefaultConfig creates the default configuration for exporter. *)
Definition CreateDefaultConfig_ (f : Factory) : Config :=
  {| ExporterSettings_ :=
       {| ExporterSettings.TypeVal := typeStr;
          ExporterSettings.NameVal := typeStr;
          ExporterSettings.Disabled := false |};
     Endpoint := EmptyString |}.

#[global] Instance Factory_factory : configmodels.Factory Factory Config := {|
  factory_Type := Type_of;
  CreateDefaultConfig := CreateDefaultConfig_
|}.

Section Create.

(** The exporters and [New], which connects one to its endpoint, come from
    the rest of the package; [unicode.IsPrint] from the Go library. *)
Variables (ZapLogger TraceExporter MetricsExporter : Type).
Variable New : Exporter -> string -> option TraceExporter * option error.
Variable IsPrint_wide : Z -> bool.

Definition dquote : string := String (ascii_of strconv.quote) EmptyString.

(** [fmt.Errorf] with the format
    [%q config requires a non-empty "endpoint"]. *)
Definition endpointRequired (name : string) : error :=
  fmt_Errorf
    (String.append (strconv.Quote IsPrint_wide name)
       (String.append " config requires a non-empty "
          (String.append dquote (String.append "endpoint" dquote)))).

(** CreateTraceExporter creates a trace exporter based on this config. *)
Definition CreateTraceExporter (f : Factory) (logger : ZapLogger)
    (config : Exporter)
  : outcome (option TraceExporter * option error) :=
  match config with
  | OtherExporter => Panicked
  | ConfigPtr expCfg =>
      if String.eqb (Endpoint expCfg) EmptyString then
        Returned (None, Some (endpointRequired (Name expCfg)))
      else
        match New config (Endpoint expCfg) with
        | (exp, Some err) => Returned (None, Some err)
        | (exp, None) => Returned (exp, None)
        end
  end.

(** CreateMetricsExporter creates a metrics exporter based on this config. *)
Definition CreateMetricsExporter (f : Factory) (logger : ZapLogger)
    (cfg : Exporter)
  : outcome (option MetricsExporter * option error) :=
  Returned (None, Some ErrDataTypeIsNotSupported).

End Create.

End jaegergrpcexporter.

(** ** The example components of package [config] *)

Module config.

Import configmodels.

(** ExampleReceiver: an example config for the [examplereceiver] type. *)
Record ExampleReceiver := {
  ExampleReceiver_ReceiverSettings : ReceiverSettings.t;
  ExampleReceiver_ExtraSetting : string;
  ExampleReceiver_ExtraMapSetting : gmap string string;
  ExampleReceiver_ExtraListSetting : list string;
  FailTraceCreation : bool;
  FailMetricsCreation : bool
}.

#[global] Instance ExampleReceiver_entity : NamedEntity ExampleReceiver := {|
  Type_ c := Type_ (ExampleReceiver_ReceiverSettings c);
  SetType typeStr c :=
    {| ExampleReceiver_ReceiverSettings :=
         SetType typeStr (ExampleReceiver_ReceiverSettings c);
       ExampleReceiver_ExtraSetting := ExampleReceiver_ExtraSetting c;
       ExampleReceiver_ExtraMapSetting := ExampleReceiver_ExtraMapSetting c;
       ExampleReceiver_ExtraListSetting := ExampleReceiver_ExtraListSetting c;
       FailTraceCreation := FailTraceCreation c;
       FailMetricsCreation := FailMetricsCreation c |};
  Name c := Name (ExampleReceiver_ReceiverSettings c);
  SetName name c :=
    {| ExampleReceiver_ReceiverSettings :=
         SetName name (ExampleReceiver_ReceiverSettings c);
       ExampleReceiver_ExtraSetting := ExampleReceiver_ExtraSetting c;
       ExampleReceiver_ExtraMapSetting := ExampleReceiver_ExtraMapSetting c;
       ExampleReceiver_ExtraListSetting := ExampleReceiver_ExtraListSetting c;
       FailTraceCreation := FailTraceCreation c;
       FailMetricsCreation := FailMetricsCreation c |}
|}.

(** ExampleReceiverFactory is factory for ExampleReceiver. *)
Inductive ExampleReceiverFactory : Type := ExampleReceiverFactoryLit.

#[global] Instance ExampleReceiverFactory_factory
  : configmodels.Factory ExampleReceiverFactory ExampleReceiver := {|
  factory_Type _ := "examplereceiver"%string;
  CreateDefaultConfig _ :=
    {| ExampleReceiver_ReceiverSettings :=
         {| ReceiverSettings.TypeVal := "examplereceiver";
            ReceiverSettings.NameVal := EmptyString;
            ReceiverSettings.Disabled := false;
            ReceiverSettings.Endpoint := "localhost:1000" |};
       ExampleReceiver_ExtraSetting := "some string";
       ExampleReceiver_ExtraMapSetting := ∅;
       ExampleReceiver_ExtraListSetting := [];
       FailTraceCreation := false;
       FailMetricsCreation := false |}
|}.


Section ExampleReceiverComponents.

(** The consumers, the host and the logger come from packages [consumer],
    [receiver] and [zap]; a consumer that is an interface value may be
    nil. *)
Context {ZapLogger Host consumer_TraceConsumer consumer_MetricsConsumer
           : Type}.

(** ExampleReceiverProducer allows producing traces and metrics for
    testing purposes. *)
Record ExampleReceiverProducer := {
  TraceConsumer : option consumer_TraceConsumer;
  TraceStarted : bool;
  TraceStopped : bool;
  MetricsConsumer : option consumer_MetricsConsumer;
  MetricsStarted : bool;
  MetricsStopped : bool
}.



(** TraceSource returns the name of the trace data source. *)
Definition TraceSource (erp : ExampleReceiverProducer) : string :=
  EmptyString.

(** StartTraceReception tells the receiver to start its processing. *)
Definition StartTraceReception (host : Host) (erp : ExampleReceiverProducer)
  : ExampleReceiverProducer * option error :=
  ({| TraceConsumer := TraceConsumer erp; TraceStarted := true;
      TraceStopped := TraceStopped erp;
      MetricsConsumer := MetricsConsumer erp;
      MetricsStarted := MetricsStarted erp;
      MetricsStopped := MetricsStopped erp |}, None).

(** StopTraceReception tells the receiver that should stop reception. *)
Definition StopTraceReception (erp : ExampleReceiverProducer)
  : ExampleReceiverProducer * option error :=
  ({| TraceConsumer := TraceConsumer erp; TraceStarted := TraceStarted erp;
      TraceStopped := true;
      MetricsConsumer := MetricsConsumer erp;
      MetricsStarted := MetricsStarted erp;
      MetricsStopped := MetricsStopped erp |}, None).

(** MetricsSource returns the name of the metrics data source. *)
Definition MetricsSource (erp : ExampleReceiverProducer) : string :=
  EmptyString.

(** StartMetricsReception tells the receiver to start its processing. *)
Definition StartMetricsReception (host : Host)
    (erp : ExampleReceiverProducer)
  : ExampleReceiverProducer * option error :=
  ({| TraceConsumer := TraceConsumer erp; TraceStarted := TraceStarted erp;
      TraceStopped := TraceStopped erp;
      MetricsConsumer := MetricsConsumer erp;
      MetricsStarted := true;
      MetricsStopped := MetricsStopped erp |}, None).

(** StopMetricsReception tells the receiver that should stop reception. *)
Definition StopMetricsReception (erp : ExampleReceiverProducer)
  : ExampleReceiverProducer * option error :=
  ({| TraceConsumer := TraceConsumer erp; TraceStarted := TraceStarted erp;
      TraceStopped := TraceStopped erp;
      MetricsConsumer := MetricsConsumer erp;
      MetricsStarted := MetricsStarted erp;
      MetricsStopped := true |}, None).

End ExampleReceiverComponents.

(** MultiProtoReceiverOneCfg is multi proto receiver config. *)
Record MultiProtoReceiverOneCfg := {
  Disabled : bool;
  Endpoint : string;
  ExtraSetting : string
}.

(** MultiProtoReceiver: an example multi protocol config for the
    [multireceiver] type. *)
Record MultiProtoReceiver := {
  TypeVal : string;
  NameVal : string;
  Protocols : gmap string MultiProtoReceiverOneCfg
}.

#[global] Instance MultiProtoReceiver_entity : NamedEntity MultiProtoReceiver := {|
  Type_ rs := TypeVal rs;
  SetType typeStr rs :=
    {| TypeVal := typeStr; NameVal := NameVal rs; Protocols := Protocols rs |};
  Name rs := NameVal rs;
  SetName name rs :=
    {| TypeVal := TypeVal rs; NameVal := name; Protocols := Protocols rs |}
|}.

(** The loop of [IsEnabled] over the entries of the map in the order the
    iteration visits them. *)
Fixpoint IsEnabled_range (entries : list (string * MultiProtoReceiverOneCfg))
  : bool :=
  match entries with
  | [] =>
      (* All protocols are disabled so the entire receiver can be
         disabled. *)
      false
  | (_, p) :: entries' =>
      if negb (Disabled p) then
        (* If any protocol is enabled then the receiver as a whole should
           be enabled. *)
        true
      else IsEnabled_range entries'
  end.

(** IsEnabled returns true if the entity is enabled.  Go visits a map in
    an unspecified order; [map_to_list] is one such order. *)
Definition IsEnabled (rs : MultiProtoReceiver) : bool :=
  IsEnabled_range (map_to_list (Protocols rs)).

(** MultiProtoReceiverFactory is factory for MultiProtoReceiver. *)
Inductive MultiProtoReceiverFactory : Type := MultiProtoReceiverFactoryLit.

#[global] Instance MultiProtoReceiverFactory_factory
  : configmodels.Factory MultiProtoReceiverFactory MultiProtoReceiver := {|
  factory_Type _ := "multireceiver"%string;
  CreateDefaultConfig _ :=
    {| TypeVal := "multireceiver";
       NameVal := EmptyString;
       Protocols :=
         <["tcp"%string :=
             {| Disabled := false; Endpoint := "omnition.com:9999";
                ExtraSetting := "extra string 2" |}]>
           (<["http"%string :=
                {| Disabled := false; Endpoint := "example.com:8888";
                   ExtraSetting := "extra string 1" |}]> ∅) |}
|}.

(** ExampleExporter: an example config for the [exampleexporter] type. *)
Record ExampleExporter := {
  ExampleExporter_ExporterSettings : ExporterSettings.t;
  ExtraInt : Z;
  ExampleExporter_ExtraSetting : string;
  ExampleExporter_ExtraMapSetting : gmap string string;
  ExampleExporter_ExtraListSetting : list string;
  ExporterShutdown : bool
}.

#[global] Instance ExampleExporter_entity : NamedEntity ExampleExporter := {|
  Type_ c := Type_ (ExampleExporter_ExporterSettings c);
  SetType typeStr c :=
    {| ExampleExporter_ExporterSettings :=
         SetType typeStr (ExampleExporter_ExporterSettings c);
       ExtraInt := ExtraInt c;
       ExampleExporter_ExtraSetting := ExampleExporter_ExtraSetting c;
       ExampleExporter_ExtraMapSetting := ExampleExporter_ExtraMapSetting c;
       ExampleExporter_ExtraListSetting := ExampleExporter_ExtraListSetting c;
       ExporterShutdown := ExporterShutdown c |};
  Name c := Name (ExampleExporter_ExporterSettings c);
  SetName name c :=
    {| ExampleExporter_ExporterSettings :=
         SetName name (ExampleExporter_ExporterSettings c);
       ExtraInt := ExtraInt c;
       ExampleExporter_ExtraSetting := ExampleExporter_ExtraSetting c;
       ExampleExporter_ExtraMapSetting := ExampleExporter_ExtraMapSetting c;
       ExampleExporter_ExtraListSetting := ExampleExporter_ExtraListSetting c;
       ExporterShutdown := ExporterShutdown c |}
|}.

(** ExampleExporterFactory is factory for ExampleExporter. *)
Inductive ExampleExporterFactory : Type := ExampleExporterFactoryLit.

#[global] Instance ExampleExporterFactory_factory
  : configmodels.Factory ExampleExporterFactory ExampleExporter := {|
  factory_Type _ := "exampleexporter"%string;
  CreateDefaultConfig _ :=
    {| ExampleExporter_ExporterSettings := ExporterSettings.zero;
       ExtraInt := 0;
       ExampleExporter_ExtraSetting := "some export string";
       ExampleExporter_ExtraMapSetting := ∅;
       ExampleExporter_ExtraListSetting := [];
       ExporterShutdown := false |}
|}.

Section ExampleExporterComponents.

(** The payloads come from package [consumerdata]. *)
Context {ZapLogger TraceData MetricsData : Type}.

(** ExampleExporterConsumer stores consumed traces and metrics for testing
    purposes. *)
Record ExampleExporterConsumer := {
  Traces : list TraceData;
  Metrics : list MetricsData;
  ExampleExporterConsumer_ExporterShutdown : bool
}.

(** CreateTraceExporter creates a trace exporter based on this config. *)
Definition ExampleExporterFactory_CreateTraceExporter
    (f : ExampleExporterFactory) (logger : ZapLogger) (cfg : ExampleExporter)
  : option ExampleExporterConsumer * option error :=
  (Some {| Traces := []; Metrics := [];
           ExampleExporterConsumer_ExporterShutdown := false |}, None).

(** CreateMetricsExporter creates a metrics exporter based on this
    config. *)
Definition ExampleExporterFactory_CreateMetricsExporter
    (f : ExampleExporterFactory) (logger : ZapLogger) (cfg : ExampleExporter)
  : option ExampleExporterConsumer * option error :=
  (Some {| Traces := []; Metrics := [];
           ExampleExporterConsumer_ExporterShutdown := false |}, None).

(** ConsumeTraceData receives consumerdata.TraceData for processing by the
    TraceConsumer. *)
Definition ConsumeTraceData (ctx : Context) (td : TraceData)
    (exp : ExampleExporterConsumer)
  : ExampleExporterConsumer * option error :=
  ({| Traces := Traces exp ++ [td]; Metrics := Metrics exp;
      ExampleExporterConsumer_ExporterShutdown :=
        ExampleExporterConsumer_ExporterShutdown exp |}, None).

(** ConsumeMetricsData receives consumerdata.MetricsData for processing by
    the MetricsConsumer. *)
Definition ConsumeMetricsData_ (ctx : Context) (md : MetricsData)
    (exp : ExampleExporterConsumer)
  : ExampleExporterConsumer * option error :=
  ({| Traces := Traces exp; Metrics := Metrics exp ++ [md];
      ExampleExporterConsumer_ExporterShutdown :=
        ExampleExporterConsumer_ExporterShutdown exp |}, None).

(** Name returns the name of the exporter. *)
Definition ExampleExporterConsumer_Name (exp : ExampleExporterConsumer)
  : string := "exampleexporter".

(** Shutdown is invoked during shutdown. *)
Definition Shutdown (exp : ExampleExporterConsumer)
  : ExampleExporterConsumer * option error :=
  ({| Traces := Traces exp; Metrics := Metrics exp;
      ExampleExporterConsumer_ExporterShutdown := true |}, None).

End ExampleExporterComponents.

(** ExampleProcessor: an example config for the [exampleprocessor] type. *)
Record ExampleProcessor := {
  ExampleProcessor_ProcessorSettings : ProcessorSettings.t;
  ExampleProcessor_ExtraSetting : string;
  ExampleProcessor_ExtraMapSetting : gmap string string;
  ExampleProcessor_ExtraListSetting : list string
}.

#[global] Instance ExampleProcessor_entity : NamedEntity ExampleProcessor := {|
  Type_ c := Type_ (ExampleProcessor_ProcessorSettings c);
  SetType typeStr c :=
    {| ExampleProcessor_ProcessorSettings :=
         SetType typeStr (ExampleProcessor_ProcessorSettings c);
       ExampleProcessor_ExtraSetting := ExampleProcessor_ExtraSetting c;
       ExampleProcessor_ExtraMapSetting := ExampleProcessor_ExtraMapSetting c;
       ExampleProcessor_ExtraListSetting :=
         ExampleProcessor_ExtraListSetting c |};
  Name c := Name (ExampleProcessor_ProcessorSettings c);
  SetName name c :=
    {| ExampleProcessor_ProcessorSettings :=
         SetName name (ExampleProcessor_ProcessorSettings c);
       ExampleProcessor_ExtraSetting := ExampleProcessor_ExtraSetting c;
       ExampleProcessor_ExtraMapSetting := ExampleProcessor_ExtraMapSetting c;
       ExampleProcessor_ExtraListSetting :=
         ExampleProcessor_ExtraListSetting c |}
|}.

(** ExampleProcessorFactory is factory for ExampleProcessor. *)
Inductive ExampleProcessorFactory : Type := ExampleProcessorFactoryLit.

#[global] Instance ExampleProcessorFactory_factory
  : configmodels.Factory ExampleProcessorFactory ExampleProcessor := {|
  factory_Type _ := "exampleprocessor"%string;
  CreateDefaultConfig _ :=
    {| ExampleProcessor_ProcessorSettings := ProcessorSettings.zero;
       ExampleProcessor_ExtraSetting := "some export string";
       ExampleProcessor_ExtraMapSetting := ∅;
       ExampleProcessor_ExtraListSetting := [] |}
|}.

(** ExampleExtension: an example config for the [exampleextension] type. *)
Record ExampleExtension := {
  ExampleExtension_ExtensionSettings : ExtensionSettings.t;
  ExampleExtension_ExtraSetting : string;
  ExampleExtension_ExtraMapSetting : gmap string string;
  ExampleExtension_ExtraListSetting : list string
}.

#[global] Instance ExampleExtension_entity : NamedEntity ExampleExtension := {|
  Type_ c := Type_ (ExampleExtension_ExtensionSettings c);
  SetType typeStr c :=
    {| ExampleExtension_ExtensionSettings :=
         SetType typeStr (ExampleExtension_ExtensionSettings c);
       ExampleExtension_ExtraSetting := ExampleExtension_ExtraSetting c;
       ExampleExtension_ExtraMapSetting := ExampleExtension_ExtraMapSetting c;
       ExampleExtension_ExtraListSetting :=
         ExampleExtension_ExtraListSetting c |};
  Name c := Name (ExampleExtension_ExtensionSettings c);
  SetName name c :=
    {| ExampleExtension_ExtensionSettings :=
         SetName name (ExampleExtension_ExtensionSettings c);
       ExampleExtension_ExtraSetting := ExampleExtension_ExtraSetting c;
       ExampleExtension_ExtraMapSetting := ExampleExtension_ExtraMapSetting c;
       ExampleExtension_ExtraListSetting :=
         ExampleExtension_ExtraListSetting c |}
|}.

(** ExampleExtensionFactory is factory for ExampleExtension. *)
Inductive ExampleExtensionFactory : Type := ExampleExtensionFactoryLit.

#[global] Instance ExampleExtensionFactory_factory
  : configmodels.Factory ExampleExtensionFactory ExampleExtension := {|
  factory_Type _ := "exampleextension"%string;
  CreateDefaultConfig _ :=
    {| ExampleExtension_ExtensionSettings := ExtensionSettings.zero;
       ExampleExtension_ExtraSetting := "extra string setting";
       ExampleExtension_ExtraMapSetting := ∅;
       ExampleExtension_ExtraListSetting := [] |}
|}.

(** The receiver factories handed to [receiver.Build]. *)
Inductive ReceiverFactory : Type :=
| IsExampleReceiverFactory (f : ExampleReceiverFactory)
| IsMultiProtoReceiverFactory (f : MultiProtoReceiverFactory).

(** [Factories]: the four maps from type string to factory; a map may be
    nil. *)
Record Factories := {
  Receivers : option (gmap string ReceiverFactory);
  Processors : option (gmap string ExampleProcessorFactory);
  Exporters : option (gmap string ExampleExporterFactory);
  Extensions : option (gmap string ExampleExtensionFactory)
}.

Section Registration.

(** The [Build] functions of packages [extension], [receiver], [exporter]
    and [processor] turn a list of factories into a map, or fail. *)
Variable extension_Build :
  list ExampleExtensionFactory
  -> option (gmap string ExampleExtensionFactory) * option error.
Variable receiver_Build :
  list ReceiverFactory -> option (gmap string ReceiverFactory) * option error.
Variable exporter_Build :
  list ExampleExporterFactory
  -> option (gmap string ExampleExporterFactory) * option error.
Variable processor_Build :
  list ExampleProcessorFactory
  -> option (gmap string ExampleProcessorFactory) * option error.

(** ExampleComponents registers example factories.  The results are
    named: [factories] starts as the zero value and is returned as far as
    it has been filled in. *)
Definition ExampleComponents : Factories * option error :=
  let '(extensions, err) := extension_Build [ExampleExtensionFactoryLit] in
  match err with
  | Some _ =>
      ({| Receivers := None; Processors := None; Exporters := None;
          Extensions := extensions |}, err)
  | None =>
      let '(receivers, err) :=
        receiver_Build
          [IsExampleReceiverFactory ExampleReceiverFactoryLit;
           IsMultiProtoReceiverFactory MultiProtoReceiverFactoryLit] in
      match err with
      | Some _ =>
          ({| Receivers := receivers; Processors := None; Exporters := None;
              Extensions := extensions |}, err)
      | None =>
          let '(exporters, err) :=
            exporter_Build [ExampleExporterFactoryLit] in
          match err with
          | Some _ =>
              ({| Receivers := receivers; Processors := None;
                  Exporters := exporters; Extensions := extensions |}, err)
          | None =>
              let '(processors, err) :=
                processor_Build [ExampleProcessorFactoryLit] in
              ({| Receivers := receivers; Processors := processors;
                  Exporters := exporters; Extensions := extensions |}, err)
          end
      end
  end.

End Registration.

End config.

(** A factory keeps the config invariant when the type string inside its
    default config is its own type string. *)
Definition default_config_typed {F C : Type} `{configmodels.Factory F C}
    (f : F) : Prop :=
  configmodels.Type_ (configmodels.CreateDefaultConfig f)
  = configmodels.factory_Type f.

(** ** Notions used to state the properties *)

(** The part of [s] before the first byte [c]: all of [s] when [c] does
    not occur. *)
Fixpoint before_first (c : ascii) (s : string) : string :=
  match s with
  | EmptyString => EmptyString
  | String a s' =>
      if Ascii.eqb a c then EmptyString else String a (before_first c s')
  end.

(** The part of [s] after the first byte [c], when [c] occurs. *)
Fixpoint after_first (c : ascii) (s : string) : option string :=
  match s with
  | EmptyString => None
  | String a s' => if Ascii.eqb a c then Some s' else after_first c s'
  end.

(** The port the node would carry if it were the part of the instance
    after the first colon, with 80 for an instance without colon. *)
Definition port_after_first_colon (instance : string) : string :=
  match after_first ":" instance with
  | Some rest => rest
  | None => "80"
  end.

(** [s] contains [substr] ([strings.Contains] of the Go library). *)
Fixpoint Contains (s substr : string) : bool :=
  strings.HasPrefix s substr
  || match s with
     | EmptyString => false
     | String _ s' => Contains s' substr
     end.

(** The first [k] bytes of [s], as far as [s] goes, are not ASCII: they
    can be the rest of a UTF-8 sequence. *)
Fixpoint continuation (k : nat) (s : string) : Prop :=
  match k, s with
  | S k', String c s' => utf8.RuneSelf <= byte_of c /\ continuation k' s'
  | _, _ => True
  end.

(** Test doubles for the collaborators of the transaction, in the manner
    of the package's tests: a metadata service that knows every target
    when its flag is set and fails otherwise, a builder that keeps the
    timestamps of the points it is given and turns each into a metric, an
    adjuster that adjusts nothing, and a consumer that accepts every
    batch. *)
Definition test_doubles : Collaborators := {|
  Logger := unit;
  Metric := Z;
  MetadataCache := labels.Labels;
  SharedLabels := fun mc => mc;
  MetadataService := bool;
  MetadataService_Get := fun known _ _ =>
    if known
    then inl [{| labels.Name := model.SchemeLabel; labels.Value := "http" |}]
    else inr (foreign "unknown target");
  metricBuilder := list Z;
  newMetricBuilder := fun _ _ => [];
  AddDataPoint := fun b _ t _ => (b ++ [t], None);
  Build := fun b => (b, (b, Z.of_nat (List.length b), 0, None));
  Heap := unit;
  JobsMap := unit;
  AdjustMetrics := fun h _ _ _ _ metrics => (h, metrics);
  MetricsConsumer := unit;
  ConsumeMetricsData := fun _ _ _ _ => None
|}.

Definition test_world : @World test_doubles :=
  @Build_World test_doubles 0 tt [] [].

(** A fresh transaction over the test doubles, with the given state of its
    context and of the metadata service. *)
Definition test_transaction (cancelled known : bool)
  : @transaction test_doubles :=
  fst (@newTransaction test_doubles {| Done := cancelled |} (Some tt) known
         tt tt test_world).

(** A New transaction as [newTransaction] leaves it: no node and no metric
    builder yet. *)
Definition fresh `{C : Collaborators} (tr : transaction) : Prop :=
  isNew tr = true /\ node tr = None /\ metricBuilder_ tr = None.

(** *** The appender protocol

    The scrape loop drives a transaction through its appender methods,
    while the owner of the context may cancel it at any moment. *)

Section Protocol.

Context `{C : Collaborators}.

Inductive call : Type :=
| CallAdd (l : labels.Labels) (t : Z) (v : float)
| CallAddFast (ls : labels.Labels) (ref t : Z) (v : float)
| CallCommit
| CallRollback
| Cancel.

(** The context of the transaction is cancelled by its owner. *)
Definition cancel_ctx (tr : transaction) : transaction :=
  {| id := id tr; ctx := {| Done := true |}; isNew := isNew tr;
     sink := sink tr; job := job tr; instance := instance tr;
     jobsMap := jobsMap tr; ms := ms tr; node := node tr;
     metricBuilder_ := metricBuilder_ tr; logger := logger tr |}.

(** One call and the error it returns. *)
Definition step (c : call) : M (option error) :=
  match c with
  | CallAdd l t v => bind (Add l t v) (fun r => ret (snd r))
  | CallAddFast ls ref t v => AddFast ls ref t v
  | CallCommit => Commit
  | CallRollback => Rollback
  | Cancel => bind (modify cancel_ctx) (fun _ => ret None)
  end.

(** A sequence of calls, whatever each returns, and the errors returned. *)
Fixpoint run (cs : list call) : M (list (option error)) :=
  match cs with
  | [] => ret []
  | c :: cs' =>
      bind (step c) (fun e => bind (run cs') (fun es => ret (e :: es)))
  end.


(** What no method of the transaction assigns: the id, the consumer,
    the metadata service, the jobs map and the logger. *)
Definition same_identity (tr tr' : transaction) : Prop :=
  id tr' = id tr /\ sink tr' = sink tr /\ ms tr' = ms tr
  /\ jobsMap tr' = jobsMap tr /\ logger tr' = logger tr.

(** A bound transaction stays bound to the same target. *)
Definition keeps_binding (tr tr' : transaction) : Prop :=
  isNew tr = false ->
  isNew tr' = false /\ node tr' = node tr /\ job tr' = job tr
  /\ instance tr' = instance tr.

(** The sequence holds no [Commit]. *)
Definition no_commit (cs : list call) : Prop :=
  Forall (fun c => c <> CallCommit) cs.

End Protocol.

(** Closes the goals on what a method leaves as it is. *)
Ltac effect_done :=
  unfold same_identity, keeps_binding in *; cbn in *;
  intuition (try congruence).

(** Where a sequence of calls leaves the transaction and the world. *)
Definition state_after `{C : Collaborators} (cs : list call)
    (tr : transaction) (w : World) : transaction * World :=
  match run cs tr w with
  | Returned (_, tr', w') => (tr', w')
  | Panicked => (tr, w)
  end.

(** A second set of test doubles: the builder refuses to build when it
    holds a negative timestamp, and the adjuster, which counts its runs
    in the heap, drops the metrics at timestamp 0 as stale. *)
Definition strict_doubles : Collaborators := {|
  Logger := unit;
  Metric := Z;
  MetadataCache := labels.Labels;
  SharedLabels := fun mc => mc;
  MetadataService := bool;
  MetadataService_Get := fun known _ _ =>
    if known
    then inl [{| labels.Name := model.SchemeLabel; labels.Value := "https" |}]
    else inr (foreign "unknown target");
  metricBuilder := list Z;
  newMetricBuilder := fun _ _ => [];
  AddDataPoint := fun b _ t _ => (b ++ [t], None);
  Build := fun b =>
    if existsb (fun t => t <? 0) b
    then (b, ([], 0, Z.of_nat (List.length b),
              Some (foreign "negative timestamp")))
    else (b, (b, Z.of_nat (List.length b), 0, None));
  Heap := Z;
  JobsMap := unit;
  AdjustMetrics := fun h _ _ _ _ metrics =>
    (h + 1, List.filter (fun t => 0 <? t) metrics);
  MetricsConsumer := unit;
  ConsumeMetricsData := fun _ _ _ _ => None
|}.

Definition strict_world : @World strict_doubles :=
  @Build_World strict_doubles 0 0 [] [].

Definition strict_transaction (jm : option unit)
  : @transaction strict_doubles :=
  fst (@newTransaction strict_doubles {| Done := false |} jm true tt tt
         strict_world).

(** The labels of a sample of metric [m] of job [j] at instance
    [h:9090]. *)
Definition sample_labels : labels.Labels :=
  [{| labels.Name := "__name__"; labels.Value := "m" |};
   {| labels.Name := "job"; labels.Value := "j" |};
   {| labels.Name := "instance"; labels.Value := "h:9090" |}].

(** The adds of a scrape, one [AddFast] per sample. *)
Definition adds (samples : list (labels.Labels * Z * float)) : list call :=
  map (fun s => CallAddFast (fst (fst s)) 0 (snd (fst s)) (snd s)) samples.

(** The test transaction once the sample has bound it. *)
Definition bound_test_transaction : @transaction test_doubles :=
  fst (state_after [CallAddFast sample_labels 0 1 one]
         (test_transaction false true) test_world).

(** The strict transaction once a sample at timestamp [t] has bound it. *)
Definition bound_strict_transaction (jm : option unit) (t : Z)
  : @transaction strict_doubles :=
  fst (state_after [CallAddFast sample_labels 0 t one]
         (strict_transaction jm) strict_world).

(** The lifecycle calls a host makes on an [ExampleReceiverProducer]. *)
Inductive lifecycle : Type :=
| DoStartTrace
| DoStopTrace
| DoStartMetrics
| DoStopMetrics.

Definition lifecycle_step {Host TC MC : Type} (host : Host) (c : lifecycle)
    (erp : @config.ExampleReceiverProducer TC MC)
  : @config.ExampleReceiverProducer TC MC :=
  match c with
  | DoStartTrace => fst (config.StartTraceReception host erp)
  | DoStopTrace => fst (config.StopTraceReception erp)
  | DoStartMetrics => fst (config.StartMetricsReception host erp)
  | DoStopMetrics => fst (config.StopMetricsReception erp)
  end.

Definition lifecycle_eqb (a b : lifecycle) : bool :=
  match a, b with
  | DoStartTrace, DoStartTrace
  | DoStopTrace, DoStopTrace
  | DoStartMetrics, DoStartMetrics
  | DoStopMetrics, DoStopMetrics => true
  | _, _ => false
  end.

(** A producer after a sequence of lifecycle calls. *)
Definition lifecycle_run {Host TC MC : Type} (host : Host)
    (cs : list lifecycle) (erp : @config.ExampleReceiverProducer TC MC)
  : @config.ExampleReceiverProducer TC MC :=
  fold_left (fun e c => lifecycle_step host c e) cs erp.

(** An example exporter after consuming a sequence of trace and metrics
    batches. *)
Definition consume_all {TraceData MetricsData : Type} (c : Context)
    (batches : list (TraceData + MetricsData))
    (exp : @config.ExampleExporterConsumer TraceData MetricsData)
  : @config.ExampleExporterConsumer TraceData MetricsData :=
  fold_left
    (fun e batch =>
       match batch with
       | inl td => fst (config.ConsumeTraceData c td e)
       | inr md => fst (config.ConsumeMetricsData_ c md e)
       end)
    batches exp.

Definition traces_of {TraceData MetricsData : Type}
    (batches : list (TraceData + MetricsData)) : list TraceData :=
  omap (fun batch => match batch with inl td => Some td | inr _ => None end)
    batches.

Definition metrics_of {TraceData MetricsData : Type}
    (batches : list (TraceData + MetricsData)) : list MetricsData :=
  omap (fun batch => match batch with inl _ => None | inr md => Some md end)
    batches.

(** * Properties *)

(** ** [strings.Split] on a colon and [createNode] *)

Lemma HasPrefix_empty (s : string) : strings.HasPrefix s EmptyString = true.
Proof. destruct s; reflexivity. Qed.

Lemma genSplit_colon_cons (a : ascii) (s : string) :
  strings.genSplit O (String a s) ":" =
  if Ascii.eqb a ":" then EmptyString :: strings.genSplit O s ":"
  else match strings.genSplit O s ":" with
       | piece :: pieces => String a piece :: pieces
       | [] => [String a EmptyString]
       end.
Proof.
  cbn [strings.genSplit strings.HasPrefix String.length Nat.pred].
  rewrite HasPrefix_empty.
  destruct (Ascii.eqb a ":"); reflexivity.
Qed.

(** Splitting on a colon: the first piece is what stands before the first
    colon, and the other pieces are those of what follows it. *)
Lemma genSplit_colon_shape (s : string) :
  strings.genSplit O s ":" =
  before_first ":" s ::
    match after_first ":" s with
    | Some rest => strings.genSplit O rest ":"
    | None => []
    end.
Proof.
  induction s as [|a s IH].
  - reflexivity.
  - rewrite genSplit_colon_cons.
    cbn [before_first after_first].
    destruct (Ascii.eqb a ":"); [reflexivity|].
    rewrite IH. reflexivity.
Qed.

Lemma before_first_absent (c : ascii) (s : string) :
  after_first c s = None -> before_first c s = s.
Proof.
  induction s as [|a s IH]; cbn [before_first after_first]; [reflexivity|].
  destruct (Ascii.eqb a c); [discriminate|].
  intros H. rewrite (IH H). reflexivity.
Qed.

Lemma createNode_host (job instance scheme : string) :
  commonpb.Identifier (createNode job instance scheme)
  = Some {| commonpb.HostName := before_first ":" instance |}.
Proof.
  unfold createNode, strings.Split. cbn [commonpb.Identifier].
  rewrite genSplit_colon_shape. reflexivity.
Qed.

Lemma createNode_port (job instance scheme : string) :
  commonpb.Attributes (createNode job instance scheme) !! portAttr
  = Some match after_first ":" instance with
         | Some rest => before_first ":" rest
         | None => "80"%string
         end.
Proof.
  unfold createNode, strings.Split. cbn [commonpb.Attributes].
  rewrite lookup_insert_ne by discriminate.
  rewrite lookup_insert_eq. f_equal.
  rewrite genSplit_colon_shape.
  destruct (after_first ":" instance) as [rest|]; [|reflexivity].
  rewrite (genSplit_colon_shape rest).
  cbn [List.length nth].
  assert (Hlen : forall n : nat, (2 <=? Z.of_nat (S (S n))) = true)
    by (intros n; apply Z.leb_le; lia).
  rewrite Hlen. reflexivity.
Qed.

(** C6, as the code has it: the node built by [createNode] has service
    name [job], host the part of [instance] before the first colon,
    attribute [scheme] the given scheme, and attribute [port] the part of
    [instance] between its first colon and the next one (all that follows
    the first colon when there is no further colon), ["80"] when
    [instance] has no colon.  The two attributes are the only ones. *)
Theorem createNode_spec (job instance scheme : string) :
  let n := createNode job instance scheme in
  let port := match after_first ":" instance with
              | Some rest => before_first ":" rest
              | None => "80"%string
              end in
  commonpb.ServiceInfo_ n = Some {| commonpb.Name := job |}
  /\ commonpb.Identifier n
     = Some {| commonpb.HostName := before_first ":" instance |}
  /\ commonpb.Attributes n !! portAttr = Some port
  /\ commonpb.Attributes n !! schemeAttr = Some scheme
  /\ (forall k, k <> portAttr -> k <> schemeAttr ->
                commonpb.Attributes n !! k = None)
  /\ (forall rest, after_first ":" instance = Some rest ->
                   after_first ":" rest = None -> port = rest).
Proof.
  cbv zeta.
  split; [reflexivity|].
  split; [apply createNode_host|].
  split; [apply createNode_port|].
  split.
  { unfold createNode. cbn [commonpb.Attributes].
    rewrite lookup_insert_eq. reflexivity. }
  split.
  { intros k Hp Hs. unfold createNode. cbn [commonpb.Attributes].
    rewrite !lookup_insert_ne by congruence. rewrite lookup_empty.
    reflexivity. }
  intros rest Hrest Hnone. rewrite Hrest.
  apply before_first_absent, Hnone.
Qed.

(** C6, as stated, fails on an instance with two colons: the port
    attribute of the node for ["h:90:80"] is ["90"], not the part
    ["90:80"] that follows the first colon. *)
Lemma createNode_port_two_colons :
  port_after_first_colon "h:90:80" = "90:80"%string
  /\ commonpb.Attributes (createNode "j" "h:90:80" "http") !! portAttr
     = Some "90"%string
  /\ commonpb.Attributes (createNode "j" "h:90:80" "http") !! portAttr
     <> Some (port_after_first_colon "h:90:80").
Proof.
  split; [reflexivity|]. split; [reflexivity|]. discriminate.
Qed.

(** The scenario of the specification: instance ["h:9090"]. *)
Example createNode_h_9090 :
  createNode "j" "h:9090" "http" =
  {| commonpb.ServiceInfo_ := Some {| commonpb.Name := "j" |};
     commonpb.Identifier := Some {| commonpb.HostName := "h" |};
     commonpb.Attributes :=
       <[schemeAttr := "http"%string]> (<[portAttr := "9090"%string]> ∅) |}.
Proof. reflexivity. Qed.

(** ** The scrape transaction *)

Section TransactionFacts.

Context `{C : Collaborators}.

Implicit Types (tr : transaction) (w : World) (ls : labels.Labels).
Implicit Types (v : float) (t ref : Z).

(** What [newTransaction] returns is New, without node or builder. *)
Lemma newTransaction_fresh (c : Context) (jm : option JobsMap)
    (svc : MetadataService) (snk : MetricsConsumer) (lg : Logger) w :
  fresh (fst (newTransaction c jm svc snk lg w))
  /\ ctx (fst (newTransaction c jm svc snk lg w)) = c
  /\ consumed (snd (newTransaction c jm svc snk lg w)) = consumed w.
Proof. repeat split. Qed.

(** The two ways [initTransaction] fails, and what it does otherwise. *)
Lemma initTransaction_no_job_instance ls tr w :
  labels.Get ls model.JobLabel = EmptyString
  \/ labels.Get ls model.InstanceLabel = EmptyString ->
  initTransaction ls tr w = Returned (Some errNoJobInstance, tr, w).
Proof.
  intros H. unfold initTransaction.
  destruct H as [-> | ->]; cbn [String.eqb orb]; [reflexivity|].
  rewrite orb_true_r. reflexivity.
Qed.

Lemma initTransaction_error ls tr w (e : error) tr' w' :
  initTransaction ls tr w = Returned (Some e, tr', w') ->
  tr' = tr /\ w' = w.
Proof.
  unfold initTransaction.
  destruct (_ || _).
  - intros H. inversion H. split; reflexivity.
  - unfold bind, this, modify, ret.
    destruct (MetadataService_Get _ _ _) as [mc|err].
    + destruct (jobsMap tr); discriminate.
    + intros H. inversion H. split; reflexivity.
Qed.

Lemma initTransaction_metadata_error ls tr w (e : error) :
  labels.Get ls model.JobLabel <> EmptyString ->
  labels.Get ls model.InstanceLabel <> EmptyString ->
  MetadataService_Get (ms tr) (labels.Get ls model.JobLabel)
    (labels.Get ls model.InstanceLabel) = inr e ->
  initTransaction ls tr w = Returned (Some e, tr, w).
Proof.
  intros Hj Hi Hget. unfold initTransaction.
  apply String.eqb_neq in Hj, Hi. rewrite Hj, Hi. cbn [orb].
  unfold bind, this. rewrite Hget. reflexivity.
Qed.

(** [Commit] on a New transaction: nothing happens. *)
Lemma Commit_isNew tr w :
  isNew tr = true -> Commit tr w = Returned (None, tr, w).
Proof.
  intros Hnew. unfold Commit, bind, this. rewrite Hnew. reflexivity.
Qed.

(** C2: on a transaction that is still New (no add has bound it to a
    target), [Commit] returns nil and leaves the transaction and the world
    as they are: the downstream consumer receives no call. *)
Theorem Commit_new_no_effect tr w :
  isNew tr = true ->
  Commit tr w = Returned (None, tr, w)
  /\ (forall tr' w' (r : option error),
        Commit tr w = Returned (r, tr', w') ->
        r = None /\ consumed w' = consumed w).
Proof.
  intros Hnew.
  pose proof (Commit_isNew tr w Hnew) as E.
  split; [exact E|].
  intros tr' w' r H. rewrite E in H. inversion H. split; reflexivity.
Qed.

(** C3: an add whose value is NaN returns nil and records nothing: the
    transaction, its builder included, and the world are unchanged. *)
Theorem AddFast_NaN_ignored ls ref t v tr w :
  IsNaN v = true ->
  AddFast ls ref t v tr w = Returned (None, tr, w).
Proof.
  intros Hnan. unfold AddFast. rewrite Hnan. reflexivity.
Qed.

(** C4: once the context of the transaction is cancelled, every add of a
    value that is not NaN returns [errTransactionAborted] and appends
    nothing: the transaction, its builder included, is unchanged. *)
Theorem AddFast_cancelled_aborts ls ref t v tr w :
  Done (ctx tr) = true ->
  IsNaN v = false ->
  AddFast ls ref t v tr w = Returned (Some errTransactionAborted, tr, w).
Proof.
  intros Hdone Hnan. unfold AddFast. rewrite Hnan.
  unfold bind, this. rewrite Hdone. reflexivity.
Qed.

(** C5, as the code has it: on a New transaction whose context is not
    cancelled, an add of a value that is not NaN whose labels have an
    empty job or an empty instance returns [errNoJobInstance]; [Add]
    returns the same error next to the reference 0. *)
Theorem AddFast_no_job_instance ls ref t v tr w :
  isNew tr = true ->
  Done (ctx tr) = false ->
  IsNaN v = false ->
  labels.Get ls model.JobLabel = EmptyString
  \/ labels.Get ls model.InstanceLabel = EmptyString ->
  AddFast ls ref t v tr w = Returned (Some errNoJobInstance, tr, w)
  /\ Add ls t v tr w = Returned ((0, Some errNoJobInstance), tr, w).
Proof.
  intros Hnew Hdone Hnan Hlabels.
  assert (E : forall r, AddFast ls r t v tr w
                        = Returned (Some errNoJobInstance, tr, w)).
  { intros r. unfold AddFast. rewrite Hnan.
    unfold bind at 1. unfold this at 1. rewrite Hdone, Hnew.
    unfold bind at 1.
    rewrite (initTransaction_no_job_instance ls tr w Hlabels).
    reflexivity. }
  split; [apply E|].
  unfold Add, bind. rewrite E. reflexivity.
Qed.

(** C9: when the add of a value that is not NaN on a New transaction
    fails in [initTransaction] (empty job or instance label, or an error
    of the metadata service), the add returns that error and the
    transaction stays as it was: New, without node and without builder;
    the [Commit] that follows returns nil without a call to the
    downstream consumer. *)
Theorem AddFast_init_failure_keeps_new ls ref t v tr w (e : error) tr1 w1 :
  fresh tr ->
  Done (ctx tr) = false ->
  IsNaN v = false ->
  initTransaction ls tr w = Returned (Some e, tr1, w1) ->
  exists tr' w',
    AddFast ls ref t v tr w = Returned (Some e, tr', w')
    /\ fresh tr'
    /\ consumed w' = consumed w
    /\ Commit tr' w' = Returned (None, tr', w')
    /\ tr' = tr /\ w' = w.
Proof.
  intros Hfresh Hdone Hnan Hinit.
  destruct (initTransaction_error _ _ _ _ _ _ Hinit) as [-> ->].
  exists tr, w.
  assert (Hnew : isNew tr = true) by apply Hfresh.
  split.
  { unfold AddFast. rewrite Hnan.
    unfold bind at 1. unfold this at 1. rewrite Hdone, Hnew.
    unfold bind at 1. rewrite Hinit. reflexivity. }
  split; [exact Hfresh|].
  split; [reflexivity|].
  split; [apply Commit_isNew, Hnew|].
  split; reflexivity.
Qed.

End TransactionFacts.

(** The transaction over the test doubles. *)

Lemma Commit_new_no_effect_witness :
  isNew (test_transaction false true) = true
  /\ Commit (test_transaction false true) test_world
     = Returned (None, test_transaction false true, test_world).
Proof.
  split; [reflexivity|].
  exact (proj1 (@Commit_new_no_effect test_doubles
                  (test_transaction false true) test_world eq_refl)).
Defined.

Lemma AddFast_NaN_ignored_witness :
  IsNaN nan = true
  /\ AddFast [] 0 5 nan (test_transaction false true) test_world
     = Returned (None, test_transaction false true, test_world).
Proof.
  split; [reflexivity|].
  exact (@AddFast_NaN_ignored test_doubles [] 0 5 nan
           (test_transaction false true) test_world eq_refl).
Defined.

Lemma AddFast_cancelled_aborts_witness :
  Done (ctx (test_transaction true true)) = true
  /\ IsNaN one = false
  /\ AddFast [] 0 5 one (test_transaction true true) test_world
     = Returned (Some errTransactionAborted, test_transaction true true,
                 test_world).
Proof.
  split; [reflexivity|]. split; [reflexivity|].
  exact (@AddFast_cancelled_aborts test_doubles [] 0 5 one
           (test_transaction true true) test_world eq_refl eq_refl).
Defined.

Lemma AddFast_no_job_instance_witness :
  labels.Get [{| labels.Name := "job"; labels.Value := "j" |}]
    model.InstanceLabel = EmptyString
  /\ AddFast [{| labels.Name := "job"; labels.Value := "j" |}] 0 5 one
       (test_transaction false true) test_world
     = Returned (Some errNoJobInstance, test_transaction false true,
                 test_world).
Proof.
  split; [reflexivity|].
  exact (proj1 (@AddFast_no_job_instance test_doubles
                  [{| labels.Name := "job"; labels.Value := "j" |}] 0 5 one
                  (test_transaction false true) test_world
                  eq_refl eq_refl eq_refl (or_intror eq_refl))).
Defined.

(** C5, as stated, fails when the context of the New transaction is
    already cancelled: the add of 1.0 with no label at all returns
    [errTransactionAborted], the labels are never looked at. *)
Lemma AddFast_cancelled_before_labels :
  isNew (test_transaction true true) = true
  /\ IsNaN one = false
  /\ labels.Get [] model.JobLabel = EmptyString
  /\ AddFast [] 0 5 one (test_transaction true true) test_world
     = Returned (Some errTransactionAborted, test_transaction true true,
                 test_world)
  /\ AddFast [] 0 5 one (test_transaction true true) test_world
     <> Returned (Some errNoJobInstance, test_transaction true true,
                  test_world).
Proof.
  repeat (split; [reflexivity|]). discriminate.
Qed.

Lemma AddFast_init_failure_keeps_new_witness :
  exists tr' w',
    AddFast [{| labels.Name := "job"; labels.Value := "j" |};
             {| labels.Name := "instance"; labels.Value := "h:9090" |}]
      0 5 one (test_transaction false false) test_world
    = Returned (Some (foreign "unknown target"), tr', w')
    /\ fresh tr'
    /\ consumed w' = consumed test_world
    /\ Commit tr' w' = Returned (None, tr', w')
    /\ tr' = test_transaction false false /\ w' = test_world.
Proof.
  exact (@AddFast_init_failure_keeps_new test_doubles
           [{| labels.Name := "job"; labels.Value := "j" |};
            {| labels.Name := "instance"; labels.Value := "h:9090" |}]
           0 5 one (test_transaction false false) test_world
           (foreign "unknown target") (test_transaction false false)
           test_world
           (conj eq_refl (conj eq_refl eq_refl)) eq_refl eq_refl eq_refl).
Defined.

(** The scenario of the specification: one sample for job [j] and
    instance [h:9090], then commit.  The consumer receives one batch whose
    node is the one [createNode] builds, with the scheme found in the
    shared labels of the target. *)
Example scrape_then_commit :
  let ls := [{| labels.Name := "__name__"; labels.Value := "m" |};
             {| labels.Name := "job"; labels.Value := "j" |};
             {| labels.Name := "instance"; labels.Value := "h:9090" |}] in
  exists tr' w',
    bind (AddFast ls 0 1 one) (fun _ => Commit)
      (test_transaction false true) test_world
    = Returned (None, tr', w')
    /\ isNew tr' = false
    /\ consumed w'
       = [({| Done := false |},
           {| consumerdata.Node := Some (createNode "j" "h:9090" "http");
              consumerdata.Metrics := [1] |})].
Proof.
  cbv zeta. eexists. eexists.
  split; [reflexivity|]. split; reflexivity.
Qed.

(** ** Default configs and their type strings *)

Lemma jaegergrpcexporter_default_config_typed :
  default_config_typed jaegergrpcexporter.FactoryLit.
Proof. reflexivity. Qed.

Lemma ExampleReceiverFactory_default_config_typed :
  default_config_typed config.ExampleReceiverFactoryLit.
Proof. reflexivity. Qed.

Lemma MultiProtoReceiverFactory_default_config_typed :
  default_config_typed config.MultiProtoReceiverFactoryLit.
Proof. reflexivity. Qed.

(** C1 at [ExampleExporterFactory]: the factory's type string is
    [exampleexporter], while its default config is built from empty
    exporter settings and so carries the empty type string.  The example
    receiver factories and the Jaeger gRPC exporter factory, just above,
    do set [TypeVal]. *)
Theorem ExampleExporterFactory_default_config_untyped :
  configmodels.factory_Type config.ExampleExporterFactoryLit
  = "exampleexporter"%string
  /\ configmodels.Type_
       (configmodels.CreateDefaultConfig config.ExampleExporterFactoryLit)
     = EmptyString
  /\ ~ default_config_typed config.ExampleExporterFactoryLit.
Proof.
  split; [reflexivity|]. split; [reflexivity|].
  unfold default_config_typed. discriminate.
Qed.

Lemma ExampleProcessorFactory_default_config_untyped :
  ~ default_config_typed config.ExampleProcessorFactoryLit.
Proof. unfold default_config_typed. discriminate. Qed.

Lemma ExampleExtensionFactory_default_config_untyped :
  ~ default_config_typed config.ExampleExtensionFactoryLit.
Proof. unfold default_config_typed. discriminate. Qed.

(** ** [MultiProtoReceiver.IsEnabled] *)

Lemma IsEnabled_range_true
    (entries : list (string * config.MultiProtoReceiverOneCfg)) :
  config.IsEnabled_range entries = true <->
  exists k p, (k, p) ∈ entries /\ config.Disabled p = false.
Proof.
  induction entries as [|[k p] entries IH]; cbn [config.IsEnabled_range].
  - split; [discriminate|]. intros (k & p & Hin & _).
    apply elem_of_nil in Hin. contradiction.
  - destruct (config.Disabled p) eqn:Hp; cbn [negb].
    + rewrite IH. split.
      * intros (k' & p' & Hin & Hd). exists k', p'.
        split; [apply elem_of_cons; right; exact Hin | exact Hd].
      * intros (k' & p' & Hin & Hd). apply elem_of_cons in Hin.
        destruct Hin as [Heq | Hin].
        -- inversion Heq; subst. congruence.
        -- exists k', p'. split; assumption.
    + split; [|reflexivity]. intros _. exists k, p.
      split; [apply elem_of_cons; left; reflexivity | exact Hp].
Qed.

(** The order in which the loop visits the entries does not matter. *)
Lemma IsEnabled_range_order
    (entries entries' : list (string * config.MultiProtoReceiverOneCfg)) :
  entries ≡ₚ entries' ->
  config.IsEnabled_range entries = config.IsEnabled_range entries'.
Proof.
  intros Hperm.
  destruct (config.IsEnabled_range entries') eqn:E'.
  - apply IsEnabled_range_true. apply IsEnabled_range_true in E'.
    destruct E' as (k & p & Hin & Hd). exists k, p.
    split; [rewrite Hperm; exact Hin | exact Hd].
  - apply not_true_is_false. intros E.
    apply IsEnabled_range_true in E. destruct E as (k & p & Hin & Hd).
    assert (config.IsEnabled_range entries' = true); [|congruence].
    apply IsEnabled_range_true. exists k, p.
    split; [rewrite <- Hperm; exact Hin | exact Hd].
Qed.

(** C8: [IsEnabled] returns true exactly when some entry of [Protocols] is
    not disabled; a receiver whose protocols are all disabled, or whose
    map of protocols is empty, is reported as disabled.  The answer is the
    same in whatever order the loop visits the entries of the map. *)
Theorem IsEnabled_iff (rs : config.MultiProtoReceiver) :
  (config.IsEnabled rs = true <->
   exists k p, config.Protocols rs !! k = Some p /\ config.Disabled p = false)
  /\ ((forall k p, config.Protocols rs !! k = Some p ->
                   config.Disabled p = true) ->
      config.IsEnabled rs = false)
  /\ (config.Protocols rs = ∅ -> config.IsEnabled rs = false)
  /\ (forall entries,
        entries ≡ₚ map_to_list (config.Protocols rs) ->
        config.IsEnabled_range entries = config.IsEnabled rs).
Proof.
  assert (Hiff : config.IsEnabled rs = true <->
                 exists k p, config.Protocols rs !! k = Some p
                             /\ config.Disabled p = false).
  { unfold config.IsEnabled. rewrite IsEnabled_range_true.
    split; intros (k & p & H & Hd); exists k, p; split; try exact Hd.
    - apply elem_of_map_to_list in H. exact H.
    - apply elem_of_map_to_list. exact H. }
  split; [exact Hiff|]. split; [|split].
  - intros Hall. apply not_true_is_false. intros E.
    apply Hiff in E. destruct E as (k & p & Hk & Hd).
    rewrite (Hall k p Hk) in Hd. discriminate.
  - intros Hempty. apply not_true_is_false. intros E.
    apply Hiff in E. destruct E as (k & p & Hk & _).
    rewrite Hempty, lookup_empty in Hk. discriminate.
  - intros entries Hperm. apply IsEnabled_range_order, Hperm.
Qed.

(** The default config of the multi protocol receiver is enabled; with
    both protocols disabled it is not. *)
Example IsEnabled_default_config :
  config.IsEnabled
    (configmodels.CreateDefaultConfig config.MultiProtoReceiverFactoryLit)
  = true.
Proof. reflexivity. Qed.

Example IsEnabled_all_disabled :
  config.IsEnabled
    {| config.TypeVal := "multireceiver"; config.NameVal := "multireceiver";
       config.Protocols :=
         <["tcp"%string :=
             {| config.Disabled := true; config.Endpoint := EmptyString;
                config.ExtraSetting := EmptyString |}]>
           (<["http"%string :=
                {| config.Disabled := true; config.Endpoint := EmptyString;
                   config.ExtraSetting := EmptyString |}]> ∅) |}
  = false.
Proof. reflexivity. Qed.

(** ** The Jaeger gRPC exporter factory *)

Lemma append_String (c : ascii) (a b : string) :
  String.append (String c a) b = String c (String.append a b).
Proof. reflexivity. Qed.

Lemma HasPrefix_app_l (s p rest : string) :
  strings.HasPrefix s p = true ->
  strings.HasPrefix (String.append s rest) p = true.
Proof.
  revert p. induction s as [|c s IH]; intros [|a p] H; try reflexivity.
  - apply HasPrefix_empty.
  - discriminate.
  - rewrite append_String. cbn [strings.HasPrefix] in *.
    destruct (Ascii.eqb c a); [apply IH, H | discriminate].
Qed.

Lemma HasPrefix_split (s p : string) :
  strings.HasPrefix s p = true -> exists rest, s = String.append p rest.
Proof.
  revert s. induction p as [|a p IH]; intros s H.
  - exists s. reflexivity.
  - destruct s as [|c s]; [discriminate|].
    cbn [strings.HasPrefix] in H.
    destruct (Ascii.eqb c a) eqn:E; [|discriminate].
    apply Ascii.eqb_eq in E. subst c.
    destruct (IH s H) as [rest ->]. exists rest. reflexivity.
Qed.

Lemma Contains_HasPrefix (s w : string) :
  strings.HasPrefix s w = true -> Contains s w = true.
Proof. intros H. destruct s; cbn [Contains]; rewrite H; reflexivity. Qed.

Lemma Contains_app_r (a b w : string) :
  Contains b w = true -> Contains (String.append a b) w = true.
Proof.
  intros H. induction a as [|c a IH]; [exact H|].
  rewrite append_String. cbn [Contains]. rewrite IH. apply orb_true_r.
Qed.

Lemma Contains_app_l (a b w : string) :
  Contains a w = true -> Contains (String.append a b) w = true.
Proof.
  induction a as [|c a IH]; intros H.
  - cbn [Contains] in H. rewrite orb_false_r in H.
    destruct w; [|discriminate]. apply Contains_HasPrefix, HasPrefix_empty.
  - cbn [Contains] in H.
    apply orb_true_iff in H. destruct H as [H | H].
    + apply Contains_HasPrefix, HasPrefix_app_l, H.
    + rewrite append_String. cbn [Contains].
      rewrite (IH H). apply orb_true_r.
Qed.

Lemma Contains_split (s w : string) :
  Contains s w = true ->
  exists a b, s = String.append a (String.append w b).
Proof.
  induction s as [|c s IH]; cbn [Contains]; intros H;
    apply orb_true_iff in H; destruct H as [H | H].
  - destruct (HasPrefix_split _ _ H) as [rest ->].
    exists EmptyString, rest. reflexivity.
  - discriminate.
  - destruct (HasPrefix_split _ _ H) as [rest ->].
    exists EmptyString, rest. reflexivity.
  - destruct (IH H) as (a & b & ->). exists (String c a), b. reflexivity.
Qed.

(** A rune of width [n] is followed by [n - 1] bytes that are not ASCII:
    decoding never takes an ASCII byte into a longer sequence. *)
Lemma DecodeRuneInString_width (c : ascii) (s : string) (r width : Z) :
  utf8.DecodeRuneInString (String c s) = (r, width) ->
  continuation (Z.to_nat (width - 1)) s.
Proof.
  unfold utf8.DecodeRuneInString, utf8.first.
  repeat match goal with
         | |- context [if ?b then _ else _] =>
             lazymatch b with
             | context [if _ then _ else _] => fail
             | _ => destruct b eqn:?
             end
         | |- context [match ?x with EmptyString => _ | String _ _ => _ end] =>
             is_var x; destruct x
         end.
  all: intros H; inversion H; subst; clear H; try exact I.
  all: try match goal with
           | H : ?b = _ |- _ =>
               let v := eval vm_compute in b in
               lazymatch v with
               | true => idtac | false => idtac
               end;
               vm_compute in H; discriminate H
           end.
  all: repeat match goal with
              | H : context [utf8.acceptRanges ?x] |- _ =>
                  let v := eval vm_compute in (utf8.acceptRanges x) in
                  change (utf8.acceptRanges x) with v in H
              | H : (_ || _) = false |- _ =>
                  apply orb_false_iff in H; destruct H
              | H : (_ <? _) = false |- _ => apply Z.ltb_ge in H
              end.
  all: cbn [fst snd] in *.
  all: unfold utf8.locb in *.
  all: change (Z.to_nat (2 - 1)) with 1%nat;
       change (Z.to_nat (3 - 1)) with 2%nat;
       change (Z.to_nat (4 - 1)) with 3%nat; cbn [continuation].
  all: unfold utf8.RuneSelf; repeat split; lia.
Qed.

Section QuoteFacts.

Variable IsPrint_wide : Z -> bool.

(** One turn of the loop: some text is written, and the bytes stepped
    over next are not ASCII. *)
Lemma quoteLoop_step (c : ascii) (s : string) :
  exists (out : string) (k : nat),
    strconv.quoteLoop IsPrint_wide O (String c s)
    = String.append out (strconv.quoteLoop IsPrint_wide k s)
    /\ continuation k s.
Proof.
  cbn [strconv.quoteLoop].
  destruct (utf8.RuneSelf <=? byte_of c).
  - destruct (utf8.DecodeRuneInString (String c s)) as [r width] eqn:E.
    destruct ((width =? 1) && (r =? utf8.RuneError)).
    + eexists. exists O. split; [reflexivity | exact I].
    + eexists. exists (Z.to_nat (width - 1)). split; [reflexivity|].
      apply (DecodeRuneInString_width c s r width E).
  - destruct ((1 =? 1) && (byte_of c =? utf8.RuneError)).
    + eexists. exists O. split; [reflexivity | exact I].
    + eexists. exists O. split; [reflexivity | exact I].
Qed.

(** The letters of the type string are printed as they are. *)
Lemma quoteLoop_typeStr (rest : string) :
  strconv.quoteLoop IsPrint_wide O
    (String.append jaegergrpcexporter.typeStr rest)
  = String.append jaegergrpcexporter.typeStr
      (strconv.quoteLoop IsPrint_wide O rest).
Proof. reflexivity. Qed.

(** Wherever the type string stands in a name, the loop reaches it with
    nothing to step over and writes it out unchanged. *)
Lemma quoteLoop_contains_typeStr (a b : string) (k : nat) :
  continuation k
    (String.append a (String.append jaegergrpcexporter.typeStr b)) ->
  Contains
    (strconv.quoteLoop IsPrint_wide k
       (String.append a (String.append jaegergrpcexporter.typeStr b)))
    jaegergrpcexporter.typeStr = true.
Proof.
  revert k. induction a as [|c a IH]; intros k Hk.
  - change (String.append EmptyString
              (String.append jaegergrpcexporter.typeStr b))
      with (String.append jaegergrpcexporter.typeStr b) in *.
    destruct k as [|k].
    + rewrite quoteLoop_typeStr. apply Contains_HasPrefix.
      apply HasPrefix_app_l. reflexivity.
    + destruct Hk as [Hk _]. vm_compute in Hk. exfalso. apply Hk.
      reflexivity.
  - rewrite append_String in *. destruct k as [|k].
    + destruct (quoteLoop_step c
                  (String.append a
                     (String.append jaegergrpcexporter.typeStr b)))
        as (out & k' & -> & Hk').
      apply Contains_app_r, IH, Hk'.
    + cbn [strconv.quoteLoop]. apply IH. apply Hk.
Qed.

Lemma Quote_contains_typeStr (name : string) :
  Contains name jaegergrpcexporter.typeStr = true ->
  Contains (strconv.Quote IsPrint_wide name) jaegergrpcexporter.typeStr
  = true.
Proof.
  intros H. destruct (Contains_split _ _ H) as (a & b & ->).
  unfold strconv.Quote. cbn [Contains]. apply orb_true_iff. right.
  apply Contains_app_l. apply quoteLoop_contains_typeStr. exact I.
Qed.

End QuoteFacts.

Section CreateFacts.

Variables (ZapLogger TraceExporter MetricsExporter : Type).
Variable New :
  jaegergrpcexporter.Exporter -> string -> option TraceExporter * option error.
Variable IsPrint_wide : Z -> bool.

(** C7, as the code has it: for a config with an empty endpoint,
    [CreateTraceExporter] returns no exporter and an error whose message
    is the quoted name of the config followed by
    [ config requires a non-empty "endpoint"].  The message contains
    [endpoint]; it contains [jaeger_grpc] whenever the name of the config
    does (a name [jaeger_grpc] or [jaeger_grpc/suffix], such as the name
    of the default config). *)
Theorem CreateTraceExporter_empty_endpoint (f : jaegergrpcexporter.Factory)
    (logger : ZapLogger) (cfg : jaegergrpcexporter.Config) :
  jaegergrpcexporter.Endpoint cfg = EmptyString ->
  exists msg,
    jaegergrpcexporter.CreateTraceExporter ZapLogger TraceExporter New
      IsPrint_wide f logger (jaegergrpcexporter.ConfigPtr cfg)
    = Returned (None, Some (fmt_Errorf msg))
    /\ msg = String.append
               (strconv.Quote IsPrint_wide (configmodels.Name cfg))
               (String.append " config requires a non-empty "
                  (String.append jaegergrpcexporter.dquote
                     (String.append "endpoint" jaegergrpcexporter.dquote)))
    /\ Contains msg "endpoint" = true
    /\ (Contains (configmodels.Name cfg) "jaeger_grpc" = true ->
        Contains msg "jaeger_grpc" = true).
Proof.
  intros Hend. eexists. split.
  { unfold jaegergrpcexporter.CreateTraceExporter. rewrite Hend.
    cbn [String.eqb]. unfold jaegergrpcexporter.endpointRequired.
    reflexivity. }
  split; [reflexivity|]. split.
  - apply Contains_app_r. reflexivity.
  - intros Hname. apply Contains_app_l.
    apply (Quote_contains_typeStr IsPrint_wide _ Hname).
Qed.

(** The default config has no endpoint: creating a trace exporter from it
    fails with the message the package's test expects. *)
Lemma CreateTraceExporter_default_config (f : jaegergrpcexporter.Factory)
    (logger : ZapLogger) :
  jaegergrpcexporter.CreateTraceExporter ZapLogger TraceExporter New
    IsPrint_wide f logger
    (jaegergrpcexporter.ConfigPtr (configmodels.CreateDefaultConfig f))
  = Returned
      (None,
       Some (fmt_Errorf
               (String.append jaegergrpcexporter.dquote
                  (String.append "jaeger_grpc"
                     (String.append jaegergrpcexporter.dquote
                        (String.append " config requires a non-empty "
                           (String.append jaegergrpcexporter.dquote
                              (String.append "endpoint"
                                 jaegergrpcexporter.dquote)))))))).
Proof. reflexivity. Qed.

(** With an endpoint the exporter is the one [New] connects. *)
Lemma CreateTraceExporter_with_endpoint (f : jaegergrpcexporter.Factory)
    (logger : ZapLogger) (cfg : jaegergrpcexporter.Config)
    (exp : option TraceExporter) :
  jaegergrpcexporter.Endpoint cfg <> EmptyString ->
  New (jaegergrpcexporter.ConfigPtr cfg) (jaegergrpcexporter.Endpoint cfg)
  = (exp, None) ->
  jaegergrpcexporter.CreateTraceExporter ZapLogger TraceExporter New
    IsPrint_wide f logger (jaegergrpcexporter.ConfigPtr cfg)
  = Returned (exp, None).
Proof.
  intros Hend Hnew. unfold jaegergrpcexporter.CreateTraceExporter.
  apply String.eqb_neq in Hend. rewrite Hend, Hnew. reflexivity.
Qed.

(** C10: whatever the config, [CreateMetricsExporter] returns no exporter
    and [ErrDataTypeIsNotSupported]. *)
Theorem CreateMetricsExporter_not_supported (f : jaegergrpcexporter.Factory)
    (logger : ZapLogger) (cfg : jaegergrpcexporter.Exporter) :
  jaegergrpcexporter.CreateMetricsExporter ZapLogger MetricsExporter f
    logger cfg
  = Returned (None, Some ErrDataTypeIsNotSupported).
Proof. reflexivity. Qed.

End CreateFacts.

(** A config named [backup] with an empty endpoint. *)
Lemma CreateTraceExporter_empty_endpoint_witness :
  exists msg,
    jaegergrpcexporter.CreateTraceExporter unit unit
      (fun _ _ => (None, None)) (fun _ => false) jaegergrpcexporter.FactoryLit
      tt
      (jaegergrpcexporter.ConfigPtr
         (configmodels.SetName "jaeger_grpc/backup"
            (configmodels.CreateDefaultConfig jaegergrpcexporter.FactoryLit)))
    = Returned (None, Some (fmt_Errorf msg))
    /\ Contains msg "endpoint" = true
    /\ Contains msg "jaeger_grpc" = true.
Proof.
  pose (cfg := configmodels.SetName "jaeger_grpc/backup"
                 (configmodels.CreateDefaultConfig
                    jaegergrpcexporter.FactoryLit)).
  assert (Hempty : jaegergrpcexporter.Endpoint cfg = EmptyString)
    by reflexivity.
  destruct (CreateTraceExporter_empty_endpoint unit unit
              (fun _ _ => (None, None)) (fun _ => false)
              jaegergrpcexporter.FactoryLit tt cfg Hempty)
    as (msg & Hcall & _ & Hend & Hname).
  exists msg. split; [exact Hcall|]. split; [exact Hend|].
  apply Hname. reflexivity.
Defined.

(** C7, as stated, fails on a config of the exporter whose name does not
    mention the type: with the name [backup] and an empty endpoint the
    error message is ["backup" config requires a non-empty "endpoint"],
    which does not contain [jaeger_grpc]. *)
Lemma CreateTraceExporter_name_without_type :
  let cfg :=
    {| jaegergrpcexporter.ExporterSettings_ :=
         {| configmodels.ExporterSettings.TypeVal := "jaeger_grpc";
            configmodels.ExporterSettings.NameVal := "backup";
            configmodels.ExporterSettings.Disabled := false |};
       jaegergrpcexporter.Endpoint := EmptyString |} in
  let msg :=
    String.append jaegergrpcexporter.dquote
      (String.append "backup"
         (String.append jaegergrpcexporter.dquote
            (String.append " config requires a non-empty "
               (String.append jaegergrpcexporter.dquote
                  (String.append "endpoint" jaegergrpcexporter.dquote))))) in
  jaegergrpcexporter.Endpoint cfg = EmptyString
  /\ jaegergrpcexporter.CreateTraceExporter unit unit
       (fun _ _ => (None, None)) (fun _ => false)
       jaegergrpcexporter.FactoryLit tt (jaegergrpcexporter.ConfigPtr cfg)
     = Returned (None, Some (fmt_Errorf msg))
  /\ Contains msg "jaeger_grpc" = false.
Proof. cbv zeta. split; [reflexivity|]. split; reflexivity. Qed.

(** ** More on the scrape transaction *)

Section TransactionEffects.

Context `{C : Collaborators}.

Implicit Types (tr : transaction) (w : World) (ls : labels.Labels).
Implicit Types (v : float) (t ref : Z).

Lemma same_identity_refl tr : same_identity tr tr.
Proof. repeat split. Qed.

Lemma same_identity_trans tr1 tr2 tr3 :
  same_identity tr1 tr2 -> same_identity tr2 tr3 -> same_identity tr1 tr3.
Proof.
  unfold same_identity. intros (? & ? & ? & ? & ?) (? & ? & ? & ? & ?).
  repeat split; congruence.
Qed.

Lemma keeps_binding_refl tr : keeps_binding tr tr.
Proof. intros H. repeat split. exact H. Qed.

Lemma keeps_binding_trans tr1 tr2 tr3 :
  keeps_binding tr1 tr2 -> keeps_binding tr2 tr3 -> keeps_binding tr1 tr3.
Proof.
  unfold keeps_binding. intros H12 H23 Hnew.
  destruct (H12 Hnew) as (Hnew2 & ? & ? & ?).
  destruct (H23 Hnew2) as (? & ? & ? & ?).
  repeat split; congruence.
Qed.

(** [initTransaction] either fails and changes nothing, or binds the
    transaction; it never touches the world. *)
Lemma initTransaction_effect ls tr w (r : option error) tr' w' :
  initTransaction ls tr w = Returned (r, tr', w') ->
  w' = w /\ same_identity tr tr' /\ ctx tr' = ctx tr
  /\ ((exists e, r = Some e) /\ tr' = tr
      \/ r = None /\ isNew tr' = false /\ node tr' <> None
         /\ metricBuilder_ tr' <> None).
Proof.
  unfold initTransaction.
  destruct (_ || _).
  - intros H. inversion H; subst.
    repeat split. left. split; [eexists|]; reflexivity.
  - unfold bind, this, modify, ret.
    destruct (MetadataService_Get _ _ _) as [mc|err].
    + destruct (jobsMap tr) eqn:Hjm; intros H; inversion H; subst;
        cbn; rewrite ?Hjm; repeat split; right; repeat split; discriminate.
    + intros H. inversion H; subst.
      repeat split. left. split; [eexists|]; reflexivity.
Qed.

Lemma AddFast_effect ls ref t v tr w (r : option error) tr' w' :
  AddFast ls ref t v tr w = Returned (r, tr', w') ->
  w' = w /\ same_identity tr tr' /\ ctx tr' = ctx tr
  /\ keeps_binding tr tr'.
Proof.
  unfold AddFast. destruct (IsNaN v).
  { intros H. inversion H; subst. effect_done. }
  unfold bind at 1. unfold this at 1.
  destruct (Done (ctx tr)).
  { intros H. inversion H; subst. effect_done. }
  unfold bind at 1.
  destruct (isNew tr) eqn:Hnew.
  - destruct (initTransaction ls tr w) as [[[r1 tr1] w1]|] eqn:Hinit;
      [|discriminate].
    destruct (initTransaction_effect _ _ _ _ _ _ Hinit)
      as (-> & Hid & Hctx & _).
    destruct r1 as [e|].
    + intros H. inversion H; subst. effect_done.
    + unfold metricBuilder_AddDataPoint, bind, this, modify, ret.
      destruct (metricBuilder_ tr1) as [b|]; [|discriminate].
      destruct (AddDataPoint b ls t v) as [b' err].
      intros H. inversion H; subst. effect_done.
  - unfold ret at 1.
    unfold metricBuilder_AddDataPoint, bind, this, modify, ret.
    destruct (metricBuilder_ tr) as [b|]; [|discriminate].
    destruct (AddDataPoint b ls t v) as [b' err].
    intros H. inversion H; subst. effect_done.
Qed.

Lemma Commit_effect tr w (r : option error) tr' w' :
  Commit tr w = Returned (r, tr', w') ->
  same_identity tr tr' /\ ctx tr' = ctx tr /\ isNew tr' = isNew tr
  /\ node tr' = node tr /\ job tr' = job tr /\ instance tr' = instance tr
  /\ idSeq w' = idSeq w
  /\ (consumed w' = consumed w
      \/ exists metrics,
           metrics <> []
           /\ consumed w'
              = (ctx tr, {| consumerdata.Node := node tr;
                            consumerdata.Metrics := metrics |})
                  :: consumed w
           /\ r = ConsumeMetricsData (sink tr) (consumed w) (ctx tr)
                    {| consumerdata.Node := node tr;
                       consumerdata.Metrics := metrics |})
  /\ (isNew tr = false ->
      exists n d, recorded w' = (ctx tr, n, d) :: recorded w)
  /\ (jobsMap tr = None -> heap w' = heap w).
Proof.
  unfold Commit. unfold bind at 1. unfold this at 1.
  destruct (isNew tr) eqn:Hnew.
  { intros H. inversion H; subst. rewrite Hnew.
    repeat split; try (left; reflexivity); discriminate. }
  destruct (metricBuilder_ tr) as [b|]; [|discriminate].
  destruct (Build b) as [b' [[[metrics n] d] err]].
  unfold bind, modify, RecordMetricsForMetricsReceiver, ret.
  destruct err as [e|].
  { intros H. inversion H; subst. cbn.
    repeat split; try (left; reflexivity); eauto. }
  assert (Hne : forall l : list Metric,
             (0 <? Z.of_nat (List.length l)) = true -> l <> []).
  { intros l Hl ->. discriminate. }
  destruct (jobsMap tr) as [jm|] eqn:Hjm.
  - unfold adjust. cbn [heap idSeq consumed recorded].
    destruct (AdjustMetrics _ _ _ _ _ _) as [h' metrics'].
    destruct (0 <? _) eqn:Hlen.
    + unfold sink_ConsumeMetricsData. intros H. inversion H; subst. cbn.
      repeat split; eauto; try discriminate.
      right. exists metrics'. repeat split. apply Hne, Hlen.
    + intros H. inversion H; subst. cbn.
      repeat split; try (left; reflexivity); eauto; discriminate.
  - destruct (0 <? _) eqn:Hlen.
    + unfold sink_ConsumeMetricsData. intros H. inversion H; subst. cbn.
      repeat split; eauto.
      right. exists metrics. repeat split. apply Hne, Hlen.
    + intros H. inversion H; subst. cbn.
      repeat split; try (left; reflexivity); eauto.
Qed.

Lemma step_effect (c : call) tr w (e : option error) tr' w' :
  step c tr w = Returned (e, tr', w') ->
  same_identity tr tr' /\ keeps_binding tr tr'
  /\ (c <> CallCommit -> w' = w).
Proof.
  destruct c as [l t v | ls ref t v | | |]; cbn [step].
  - unfold Add, bind, ret.
    destruct (AddFast l 0 t v tr w) as [[[r1 tr1] w1]|] eqn:E;
      [|discriminate].
    intros H. inversion H; subst.
    destruct (AddFast_effect _ _ _ _ _ _ _ _ _ E) as (-> & ? & ? & ?).
    split; [assumption|]. split; [assumption|]. intros _. reflexivity.
  - intros E.
    destruct (AddFast_effect _ _ _ _ _ _ _ _ _ E) as (-> & ? & ? & ?).
    split; [assumption|]. split; [assumption|]. intros _. reflexivity.
  - intros E. destruct (Commit_effect _ _ _ _ _ E)
      as (? & ? & Hnew & Hnode & Hjob & Hinst & _).
    split; [assumption|]. split; [|congruence].
    intros Hfalse. repeat split; congruence.
  - unfold Rollback, ret. intros H. inversion H; subst. effect_done.
  - unfold bind, modify, ret. intros H. inversion H; subst. effect_done.
Qed.

Lemma run_effect (cs : list call) tr w (es : list (option error)) tr' w' :
  run cs tr w = Returned (es, tr', w') ->
  same_identity tr tr' /\ keeps_binding tr tr'
  /\ (no_commit cs -> w' = w).
Proof.
  revert tr w es tr' w'.
  induction cs as [|c cs IH]; intros tr w es tr' w'; cbn [run].
  - unfold ret. intros H. inversion H; subst.
    split; [apply same_identity_refl|].
    split; [apply keeps_binding_refl | reflexivity].
  - unfold bind at 1.
    destruct (step c tr w) as [[[e tr1] w1]|] eqn:Estep; [|discriminate].
    unfold bind at 1.
    destruct (run cs tr1 w1) as [[[es1 tr2] w2]|] eqn:Erun; [|discriminate].
    unfold ret. intros H. inversion H; subst.
    destruct (step_effect _ _ _ _ _ _ Estep) as (Hid1 & Hb1 & Hw1).
    destruct (IH _ _ _ _ _ Erun) as (Hid2 & Hb2 & Hw2).
    split; [eapply same_identity_trans; eassumption|].
    split; [eapply keeps_binding_trans; eassumption|].
    intros Hnc. inversion Hnc; subst.
    rewrite Hw2 by assumption. apply Hw1. assumption.
Qed.





(** X1: the first add of a value that is not NaN on a New transaction
    whose context is not cancelled, with a job and an instance label that
    the metadata service knows, binds the transaction: it is no longer
    New, its node is the one of the job, the instance and the scheme of
    the target, its builder is a new one that has been given the sample,
    and the job and instance are remembered when there is a jobs map.
    The error returned is the one of the builder; the transaction is bound
    even then. *)
Theorem AddFast_binds_transaction ls ref t v tr w (mc : MetadataCache) :
  isNew tr = true ->
  Done (ctx tr) = false ->
  IsNaN v = false ->
  labels.Get ls model.JobLabel <> EmptyString ->
  labels.Get ls model.InstanceLabel <> EmptyString ->
  MetadataService_Get (ms tr) (labels.Get ls model.JobLabel)
    (labels.Get ls model.InstanceLabel) = inl mc ->
  let point := AddDataPoint (newMetricBuilder mc (logger tr)) ls t v in
  exists tr',
    AddFast ls ref t v tr w = Returned (snd point, tr', w)
    /\ isNew tr' = false
    /\ node tr'
       = Some (createNode (labels.Get ls model.JobLabel)
                 (labels.Get ls model.InstanceLabel)
                 (labels.Get (SharedLabels mc) model.SchemeLabel))
    /\ metricBuilder_ tr' = Some (fst point)
    /\ (job tr', instance tr')
       = match jobsMap tr with
         | Some _ => (labels.Get ls model.JobLabel,
                      labels.Get ls model.InstanceLabel)
         | None => (job tr, instance tr)
         end
    /\ same_identity tr tr' /\ ctx tr' = ctx tr.
Proof.
  intros Hnew Hdone Hnan Hj Hi Hget. cbv zeta.
  unfold AddFast. rewrite Hnan.
  unfold bind at 1. unfold this at 1. rewrite Hdone, Hnew.
  unfold bind at 1. unfold initTransaction.
  apply String.eqb_neq in Hj, Hi. rewrite Hj, Hi. cbn [orb].
  unfold bind at 1. unfold this at 1. rewrite Hget.
  unfold metricBuilder_AddDataPoint, bind, this, modify, ret.
  destruct (jobsMap tr) eqn:Hjm; cbn;
    destruct (AddDataPoint _ ls t v) as [b' err]; cbn;
    eexists; (split; [reflexivity|]); cbn; rewrite ?Hjm;
    repeat split.
Qed.

(** X2: on a bound transaction whose context is not cancelled, an add of
    a value that is not NaN goes straight to the builder: the labels are
    not examined again (a sample without job or instance is not refused),
    the error is the builder's, and only the builder changes. *)
Theorem AddFast_bound_forwards ls ref t v tr w (b : metricBuilder) :
  isNew tr = false ->
  metricBuilder_ tr = Some b ->
  Done (ctx tr) = false ->
  IsNaN v = false ->
  AddFast ls ref t v tr w
  = Returned (snd (AddDataPoint b ls t v),
              set_metricBuilder (Some (fst (AddDataPoint b ls t v))) tr, w).
Proof.
  intros Hnew Hb Hdone Hnan. unfold AddFast. rewrite Hnan.
  unfold bind at 1. unfold this at 1. rewrite Hdone, Hnew.
  unfold bind at 1. unfold ret at 1.
  unfold metricBuilder_AddDataPoint, bind, this, modify, ret.
  rewrite Hb. destruct (AddDataPoint b ls t v) as [b' err]. reflexivity.
Qed.


(** X4: a sequence of calls without [Commit] leaves the world as it is:
    adds, rollbacks and cancellations never call the downstream consumer,
    never record statistics and never touch the jobs map. *)
Theorem run_without_commit_leaves_world (cs : list call) tr w
    (es : list (option error)) tr' w' :
  no_commit cs ->
  run cs tr w = Returned (es, tr', w') ->
  w' = w.
Proof.
  intros Hnc Hrun. apply (run_effect _ _ _ _ _ _ Hrun). exact Hnc.
Qed.

(** X5: no sequence of calls changes the id, the consumer, the metadata
    service, the jobs map or the logger of a transaction, and a bound
    transaction stays bound to its target: it never becomes New again and
    its node, job and instance are those of the sample that bound it,
    whatever the labels of later samples. *)
Theorem run_keeps_identity_and_binding (cs : list call) tr w
    (es : list (option error)) tr' w' :
  run cs tr w = Returned (es, tr', w') ->
  same_identity tr tr' /\ keeps_binding tr tr'.
Proof.
  intros Hrun. destruct (run_effect _ _ _ _ _ _ Hrun) as (Hid & Hb & _).
  split; assumption.
Qed.

(** X6: a [Commit] hands the consumer at most one batch, never an empty
    one; the batch carries the node of the transaction, and the error
    [Commit] returns is then the answer of the consumer. *)
Theorem Commit_delivers_at_most_one_batch tr w (r : option error) tr' w' :
  Commit tr w = Returned (r, tr', w') ->
  consumed w' = consumed w
  \/ exists metrics,
       metrics <> []
       /\ consumed w'
          = (ctx tr, {| consumerdata.Node := node tr;
                        consumerdata.Metrics := metrics |})
              :: consumed w
       /\ r = ConsumeMetricsData (sink tr) (consumed w) (ctx tr)
                {| consumerdata.Node := node tr;
                   consumerdata.Metrics := metrics |}.
Proof.
  intros H. apply (Commit_effect _ _ _ _ _ H).
Qed.

(** X7: when the builder fails to build, [Commit] on a bound transaction
    returns the error of the builder without calling the consumer or the
    adjuster; the statistics of the build are recorded all the same. *)
Theorem Commit_build_error tr w (b b' : metricBuilder)
    (metrics : list Metric) (n d : Z) (e : error) :
  isNew tr = false ->
  metricBuilder_ tr = Some b ->
  Build b = (b', (metrics, n, d, Some e)) ->
  Commit tr w
  = Returned (Some e, set_metricBuilder (Some b') tr,
              {| idSeq := idSeq w; heap := heap w; consumed := consumed w;
                 recorded := (ctx tr, n, d) :: recorded w |}).
Proof.
  intros Hnew Hb Hbuild. unfold Commit. unfold bind at 1. unfold this at 1.
  rewrite Hnew, Hb, Hbuild. reflexivity.
Qed.

(** X8: a transaction without jobs map commits without adjustment: its
    [Commit] leaves the shared objects as they are. *)
Theorem Commit_without_jobsMap_keeps_heap tr w (r : option error) tr' w' :
  jobsMap tr = None ->
  Commit tr w = Returned (r, tr', w') ->
  heap w' = heap w.
Proof.
  intros Hjm H. apply (Commit_effect _ _ _ _ _ H). exact Hjm.
Qed.

(** X9: with a jobs map, what [Commit] hands the consumer is what the
    adjuster made of the built metrics for the job and instance of the
    transaction, and the objects the adjuster updated are kept; when the
    adjuster leaves nothing, the consumer is not called and [Commit]
    returns nil. *)
Theorem Commit_delivers_adjusted_metrics tr w (b b' : metricBuilder)
    (jm : JobsMap) (metrics metrics' : list Metric) (n d : Z) (h' : Heap) :
  isNew tr = false ->
  metricBuilder_ tr = Some b ->
  jobsMap tr = Some jm ->
  Build b = (b', (metrics, n, d, None)) ->
  AdjustMetrics (heap w) jm (job tr) (instance tr) (logger tr) metrics
  = (h', metrics') ->
  let md := {| consumerdata.Node := node tr;
               consumerdata.Metrics := metrics' |} in
  Commit tr w
  = Returned
      (match metrics' with
       | [] => None
       | _ :: _ => ConsumeMetricsData (sink tr) (consumed w) (ctx tr) md
       end,
       set_metricBuilder (Some b') tr,
       {| idSeq := idSeq w; heap := h';
          consumed := match metrics' with
                      | [] => consumed w
                      | _ :: _ => (ctx tr, md) :: consumed w
                      end;
          recorded := (ctx tr, n, d) :: recorded w |}).
Proof.
  intros Hnew Hb Hjm Hbuild Hadj. cbv zeta.
  unfold Commit. unfold bind at 1. unfold this at 1.
  rewrite Hnew, Hb, Hbuild.
  unfold bind, modify, RecordMetricsForMetricsReceiver, ret.
  rewrite Hjm. unfold adjust. cbn [heap idSeq consumed recorded].
  rewrite Hadj. destruct metrics' as [|m metrics']; reflexivity.
Qed.

(** X10: every [Commit] on a bound transaction records the statistics of
    its build exactly once, whether the build, the adjustment or the
    consumer fail or not. *)
Theorem Commit_records_statistics_once tr w (b b' : metricBuilder)
    (metrics : list Metric) (n d : Z) (err r : option error) tr' w' :
  isNew tr = false ->
  metricBuilder_ tr = Some b ->
  Build b = (b', (metrics, n, d, err)) ->
  Commit tr w = Returned (r, tr', w') ->
  recorded w' = (ctx tr, n, d) :: recorded w.
Proof.
  intros Hnew Hb Hbuild. unfold Commit. unfold bind at 1. unfold this at 1.
  rewrite Hnew, Hb, Hbuild.
  unfold bind, modify, RecordMetricsForMetricsReceiver, ret.
  destruct err as [e|].
  { intros H. inversion H; subst. reflexivity. }
  destruct (jobsMap tr) as [jm|].
  - unfold adjust. cbn [heap idSeq consumed recorded].
    destruct (AdjustMetrics _ _ _ _ _ _) as [h' metrics'].
    destruct (0 <? _); unfold sink_ConsumeMetricsData;
      intros H; inversion H; subst; reflexivity.
  - destruct (0 <? _); unfold sink_ConsumeMetricsData;
      intros H; inversion H; subst; reflexivity.
Qed.

(** X11: [newTransaction] takes the next value of the package counter as
    id, within the range of [int64]; while the counter is in that range,
    two transactions made one after the other have different ids. *)
Theorem newTransaction_ids (c : Context) (jm : option JobsMap)
    (svc : MetadataService) (snk : MetricsConsumer) (lg : Logger) w :
  - 2 ^ 63 <= idSeq w < 2 ^ 63 ->
  let first := newTransaction c jm svc snk lg w in
  let second := newTransaction c jm svc snk lg (snd first) in
  id (fst first) = idSeq (snd first)
  /\ - 2 ^ 63 <= id (fst first) < 2 ^ 63
  /\ (idSeq w < 2 ^ 63 - 1 -> id (fst first) = idSeq w + 1)
  /\ (idSeq w = 2 ^ 63 - 1 -> id (fst first) = - 2 ^ 63)
  /\ id (fst second) <> id (fst first).
Proof.
  intros Hrange. cbv zeta. cbn [newTransaction fst snd id idSeq].
  unfold wrap64.
  assert (H64 : 2 ^ 64 = 2 * 2 ^ 63) by reflexivity.
  set (p := 2 ^ 63) in *.
  assert (Hp : 0 < p) by (subst p; reflexivity).
  assert (Hfirst : (idSeq w + 1 + p) mod 2 ^ 64 - p
                   = if Z.eq_dec (idSeq w) (p - 1) then - p
                     else idSeq w + 1).
  { destruct (Z.eq_dec (idSeq w) (p - 1)) as [-> | Hne].
    - replace (p - 1 + 1 + p) with (2 ^ 64) by lia.
      rewrite Z.mod_same by lia. lia.
    - rewrite Z.mod_small by lia. lia. }
  rewrite Hfirst.
  split; [reflexivity|].
  split; [destruct (Z.eq_dec _ _); lia|].
  split; [intros; destruct (Z.eq_dec _ _); lia|].
  split; [intros; destruct (Z.eq_dec _ _); lia|].
  destruct (Z.eq_dec (idSeq w) (p - 1)) as [E | Hne].
  - replace (- p + 1 + p) with 1 by lia.
    rewrite Z.mod_small by lia. lia.
  - destruct (Z.eq_dec (idSeq w + 1) (p - 1)) as [E1 | Hne1].
    + rewrite E1. replace (p - 1 + 1 + p) with (2 ^ 64) by lia.
      rewrite Z.mod_same by lia. lia.
    + rewrite Z.mod_small by lia. lia.
Qed.

End TransactionEffects.

(** The further properties of the transaction, over the test doubles. *)

Lemma AddFast_binds_transaction_witness :
  exists tr',
    AddFast sample_labels 0 1 one (test_transaction false true) test_world
    = Returned (None, tr', test_world)
    /\ isNew tr' = false
    /\ node tr' = Some (createNode "j" "h:9090" "http")
    /\ metricBuilder_ tr' = Some [1]
    /\ (job tr', instance tr') = ("j"%string, "h:9090"%string).
Proof.
  destruct (@AddFast_binds_transaction test_doubles sample_labels 0 1 one
              (test_transaction false true) test_world
              [{| labels.Name := model.SchemeLabel;
                  labels.Value := "http" |}])
    as (tr' & Hcall & Hnew & Hnode & Hb & Hji & _);
    try reflexivity; try discriminate.
  exists tr'. repeat split; assumption.
Defined.

Lemma AddFast_bound_forwards_witness :
  AddFast [] 0 2 one bound_test_transaction test_world
  = Returned (None,
              @set_metricBuilder test_doubles (Some [1; 2])
                bound_test_transaction,
              test_world).
Proof.
  apply (@AddFast_bound_forwards test_doubles [] 0 2 one
           bound_test_transaction test_world [1]); reflexivity.
Defined.

Lemma run_without_commit_leaves_world_witness :
  snd (state_after
         [CallAddFast sample_labels 0 1 one; Cancel;
          CallAdd sample_labels 2 one; CallRollback]
         (test_transaction false true) test_world)
  = test_world.
Proof.
  apply (@run_without_commit_leaves_world test_doubles
           [CallAddFast sample_labels 0 1 one; Cancel;
            CallAdd sample_labels 2 one; CallRollback]
           (test_transaction false true) test_world
           [None; None; Some errTransactionAborted; None]
           (fst (state_after
                   [CallAddFast sample_labels 0 1 one; Cancel;
                    CallAdd sample_labels 2 one; CallRollback]
                   (test_transaction false true) test_world))).
  - repeat constructor; discriminate.
  - vm_compute. reflexivity.
Defined.

Lemma run_keeps_identity_and_binding_witness :
  let cs := [CallAddFast [{| labels.Name := "job"; labels.Value := "x" |}]
               0 2 one;
             CallCommit; Cancel; CallAdd sample_labels 3 one] in
  let tr' := fst (state_after cs bound_test_transaction test_world) in
  same_identity bound_test_transaction tr'
  /\ keeps_binding bound_test_transaction tr'.
Proof.
  cbv zeta.
  apply (@run_keeps_identity_and_binding test_doubles
           [CallAddFast [{| labels.Name := "job"; labels.Value := "x" |}]
              0 2 one;
            CallCommit; Cancel; CallAdd sample_labels 3 one]
           bound_test_transaction test_world
           [None; None; None; Some errTransactionAborted]
           _
           (snd (state_after
                   [CallAddFast
                      [{| labels.Name := "job"; labels.Value := "x" |}]
                      0 2 one;
                    CallCommit; Cancel; CallAdd sample_labels 3 one]
                   bound_test_transaction test_world))).
  vm_compute. reflexivity.
Defined.

Lemma Commit_delivers_at_most_one_batch_witness :
  let w' := snd (state_after [CallCommit] bound_test_transaction test_world)
  in
  consumed w' = consumed test_world
  \/ exists metrics,
       metrics <> []
       /\ consumed w'
          = (ctx bound_test_transaction,
             {| consumerdata.Node := node bound_test_transaction;
                consumerdata.Metrics := metrics |})
              :: consumed test_world
       /\ None
          = @ConsumeMetricsData test_doubles (sink bound_test_transaction)
              (consumed test_world) (ctx bound_test_transaction)
              {| consumerdata.Node := node bound_test_transaction;
                 consumerdata.Metrics := metrics |}.
Proof.
  cbv zeta.
  apply (@Commit_delivers_at_most_one_batch test_doubles
           bound_test_transaction test_world None
           (fst (state_after [CallCommit] bound_test_transaction
                   test_world))).
  vm_compute. reflexivity.
Defined.

Lemma Commit_build_error_witness :
  exists tr' w',
    Commit (bound_strict_transaction (Some tt) (-1)) strict_world
    = Returned (Some (foreign "negative timestamp"), tr', w')
    /\ consumed w' = [] /\ heap w' = 0
    /\ recorded w' = [({| Done := false |}, 0, 1)].
Proof.
  eexists. eexists. split.
  - apply (@Commit_build_error strict_doubles
             (bound_strict_transaction (Some tt) (-1)) strict_world
             [-1] [-1] [] 0 1 (foreign "negative timestamp"));
      reflexivity.
  - repeat split.
Defined.

Lemma Commit_without_jobsMap_keeps_heap_witness :
  heap (snd (state_after [CallCommit] (bound_strict_transaction None 5)
               strict_world))
  = heap strict_world.
Proof.
  apply (@Commit_without_jobsMap_keeps_heap strict_doubles
           (bound_strict_transaction None 5) strict_world None
           (fst (state_after [CallCommit] (bound_strict_transaction None 5)
                   strict_world))).
  - reflexivity.
  - vm_compute. reflexivity.
Defined.

Lemma Commit_delivers_adjusted_metrics_witness :
  exists tr' w',
    Commit (bound_strict_transaction (Some tt) 0) strict_world
    = Returned (None, tr', w')
    /\ consumed w' = [] /\ heap w' = 1.
Proof.
  eexists. eexists. split.
  - apply (@Commit_delivers_adjusted_metrics strict_doubles
             (bound_strict_transaction (Some tt) 0) strict_world
             [0] [0] tt [0] [] 1 0 1); reflexivity.
  - repeat split.
Defined.

Lemma Commit_records_statistics_once_witness :
  recorded (snd (state_after [CallCommit] bound_test_transaction test_world))
  = (ctx bound_test_transaction, 1, 0) :: recorded test_world.
Proof.
  apply (@Commit_records_statistics_once test_doubles
           bound_test_transaction test_world [1] [1] [1] 1 0 None None
           (fst (state_after [CallCommit] bound_test_transaction
                   test_world))).
  - reflexivity.
  - reflexivity.
  - reflexivity.
  - vm_compute. reflexivity.
Defined.

Lemma newTransaction_ids_witness :
  let w := @Build_World test_doubles (2 ^ 63 - 1) tt [] [] in
  let first :=
    @newTransaction test_doubles {| Done := false |} None true tt tt w in
  let second :=
    @newTransaction test_doubles {| Done := false |} None true tt tt
      (snd first) in
  id (fst first) = - 2 ^ 63 /\ id (fst second) = - 2 ^ 63 + 1
  /\ id (fst second) <> id (fst first).
Proof.
  cbv zeta.
  destruct (@newTransaction_ids test_doubles {| Done := false |} None true
              tt tt (@Build_World test_doubles (2 ^ 63 - 1) tt [] []))
    as (_ & _ & _ & Hwrap & Hdiff).
  - cbn [idSeq]. lia.
  - split; [apply Hwrap; reflexivity|].
    split; [reflexivity | exact Hdiff].
Defined.

(** ** More on [createNode] *)

Lemma before_first_app (c : ascii) (host rest : string) :
  after_first c host = None ->
  before_first c (String.append host (String c rest)) = host.
Proof.
  induction host as [|a host IH]; cbn [after_first].
  - intros _. change (String.append EmptyString (String c rest))
      with (String c rest).
    cbn [before_first]. rewrite Ascii.eqb_refl. reflexivity.
  - rewrite append_String. cbn [before_first].
    destruct (Ascii.eqb a c); [discriminate|].
    intros H. rewrite (IH H). reflexivity.
Qed.

Lemma after_first_app (c : ascii) (host rest : string) :
  after_first c host = None ->
  after_first c (String.append host (String c rest)) = Some rest.
Proof.
  induction host as [|a host IH]; cbn [after_first].
  - intros _. change (String.append EmptyString (String c rest))
      with (String c rest).
    cbn [after_first]. rewrite Ascii.eqb_refl. reflexivity.
  - rewrite append_String. cbn [after_first].
    destruct (Ascii.eqb a c); [discriminate|].
    exact IH.
Qed.

(** The node in terms of the first two colons of the instance. *)
Lemma createNode_eq (job instance scheme : string) :
  createNode job instance scheme
  = {| commonpb.ServiceInfo_ := Some {| commonpb.Name := job |};
       commonpb.Identifier :=
         Some {| commonpb.HostName := before_first ":" instance |};
       commonpb.Attributes :=
         <[schemeAttr := scheme]>
           (<[portAttr := match after_first ":" instance with
                          | Some rest => before_first ":" rest
                          | None => "80"%string
                          end]> ∅) |}.
Proof.
  unfold createNode, strings.Split.
  rewrite genSplit_colon_shape. cbn [nth].
  destruct (after_first ":" instance) as [rest|]; [|reflexivity].
  rewrite (genSplit_colon_shape rest).
  cbn [List.length nth].
  assert (Hlen : forall n : nat, (2 <=? Z.of_nat (S (S n))) = true)
    by (intros n; apply Z.leb_le; lia).
  rewrite Hlen. reflexivity.
Qed.

(** X12: a host and a port without colon, joined by a colon, are found
    again in the node: [createNode] splits what it is given as
    [host:port] back into the two. *)
Theorem createNode_host_port_round_trip (job host port scheme : string) :
  after_first ":" host = None ->
  after_first ":" port = None ->
  createNode job (String.append host (String ":" port)) scheme
  = {| commonpb.ServiceInfo_ := Some {| commonpb.Name := job |};
       commonpb.Identifier := Some {| commonpb.HostName := host |};
       commonpb.Attributes :=
         <[schemeAttr := scheme]> (<[portAttr := port]> ∅) |}.
Proof.
  intros Hhost Hport. rewrite createNode_eq.
  rewrite (before_first_app _ _ _ Hhost), (after_first_app _ _ _ Hhost).
  rewrite (before_first_absent _ _ Hport). reflexivity.
Qed.

Lemma createNode_host_port_round_trip_witness :
  createNode "j" (String.append "example.com" (String ":" "9090")) "https"
  = {| commonpb.ServiceInfo_ := Some {| commonpb.Name := "j" |};
       commonpb.Identifier := Some {| commonpb.HostName := "example.com" |};
       commonpb.Attributes :=
         <[schemeAttr := "https"%string]>
           (<[portAttr := "9090"%string]> ∅) |}.
Proof.
  apply (createNode_host_port_round_trip "j" "example.com" "9090" "https");
    reflexivity.
Defined.

(** X13: whatever follows a second colon in the instance is ignored: the
    node is the one of the instance cut before its second colon. *)
Theorem createNode_ignores_after_second_colon
    (job host port rest scheme : string) :
  after_first ":" host = None ->
  after_first ":" port = None ->
  createNode job
    (String.append host (String ":" (String.append port (String ":" rest))))
    scheme
  = createNode job (String.append host (String ":" port)) scheme.
Proof.
  intros Hhost Hport. rewrite !createNode_eq.
  rewrite !(before_first_app _ _ _ Hhost), !(after_first_app _ _ _ Hhost).
  rewrite (before_first_app _ _ _ Hport), (before_first_absent _ _ Hport).
  reflexivity.
Qed.

Lemma createNode_ignores_after_second_colon_witness :
  createNode "j"
    (String.append "h" (String ":" (String.append "90" (String ":" "80"))))
    "http"
  = createNode "j" (String.append "h" (String ":" "90")) "http".
Proof.
  apply (createNode_ignores_after_second_colon "j" "h" "90" "80" "http");
    reflexivity.
Defined.

(** ** More on the Jaeger gRPC exporter factory *)

(** X14: [CreateTraceExporter] never returns an exporter together with an
    error: when [New] fails, the exporter it may have returned is dropped. *)
Theorem CreateTraceExporter_error_without_exporter
    (ZapLogger TraceExporter : Type)
    (New : jaegergrpcexporter.Exporter -> string
           -> option TraceExporter * option error)
    (IsPrint_wide : Z -> bool) (f : jaegergrpcexporter.Factory)
    (logger : ZapLogger) (config : jaegergrpcexporter.Exporter)
    (exp : option TraceExporter) (e : error) :
  jaegergrpcexporter.CreateTraceExporter ZapLogger TraceExporter New
    IsPrint_wide f logger config
  = Returned (exp, Some e) ->
  exp = None.
Proof.
  unfold jaegergrpcexporter.CreateTraceExporter.
  destruct config as [cfg|]; [|discriminate].
  destruct (String.eqb _ _).
  - intros H. inversion H. reflexivity.
  - destruct (New _ _) as [exp' [err|]]; intros H; inversion H; reflexivity.
Qed.

Lemma CreateTraceExporter_error_without_exporter_witness :
  let New := fun (_ : jaegergrpcexporter.Exporter) (_ : string) =>
               (Some 7%nat, Some (foreign "connection refused")) in
  let config :=
    jaegergrpcexporter.ConfigPtr
      {| jaegergrpcexporter.ExporterSettings_ :=
           configmodels.ExporterSettings.zero;
         jaegergrpcexporter.Endpoint := "some.target.org:12345" |} in
  exists exp,
    jaegergrpcexporter.CreateTraceExporter unit nat New (fun _ => false)
      jaegergrpcexporter.FactoryLit tt config
    = Returned (exp, Some (foreign "connection refused"))
    /\ exp = None.
Proof.
  cbv zeta. eexists. split; [reflexivity|].
  apply (CreateTraceExporter_error_without_exporter unit nat
           (fun _ _ => (Some 7%nat, Some (foreign "connection refused")))
           (fun _ => false) jaegergrpcexporter.FactoryLit tt
           (jaegergrpcexporter.ConfigPtr
              {| jaegergrpcexporter.ExporterSettings_ :=
                   configmodels.ExporterSettings.zero;
                 jaegergrpcexporter.Endpoint := "some.target.org:12345" |})
           None (foreign "connection refused")).
  reflexivity.
Defined.

(** X15: the endpoint is checked before anything else is done with the
    config: with an empty endpoint the outcome does not depend on [New],
    no connection is attempted. *)
Theorem CreateTraceExporter_empty_endpoint_ignores_New
    (ZapLogger TraceExporter : Type)
    (New1 New2 : jaegergrpcexporter.Exporter -> string
                 -> option TraceExporter * option error)
    (IsPrint_wide : Z -> bool) (f : jaegergrpcexporter.Factory)
    (logger : ZapLogger) (cfg : jaegergrpcexporter.Config) :
  jaegergrpcexporter.Endpoint cfg = EmptyString ->
  jaegergrpcexporter.CreateTraceExporter ZapLogger TraceExporter New1
    IsPrint_wide f logger (jaegergrpcexporter.ConfigPtr cfg)
  = jaegergrpcexporter.CreateTraceExporter ZapLogger TraceExporter New2
      IsPrint_wide f logger (jaegergrpcexporter.ConfigPtr cfg).
Proof.
  intros Hend. unfold jaegergrpcexporter.CreateTraceExporter.
  rewrite Hend. reflexivity.
Qed.

Lemma CreateTraceExporter_empty_endpoint_ignores_New_witness :
  jaegergrpcexporter.CreateTraceExporter unit nat
    (fun _ _ => (Some 7%nat, None)) (fun _ => false)
    jaegergrpcexporter.FactoryLit tt
    (jaegergrpcexporter.ConfigPtr
       (configmodels.CreateDefaultConfig jaegergrpcexporter.FactoryLit))
  = jaegergrpcexporter.CreateTraceExporter unit nat
      (fun _ _ => (None, Some (foreign "connection refused")))
      (fun _ => false) jaegergrpcexporter.FactoryLit tt
      (jaegergrpcexporter.ConfigPtr
         (configmodels.CreateDefaultConfig jaegergrpcexporter.FactoryLit)).
Proof.
  apply (CreateTraceExporter_empty_endpoint_ignores_New unit nat).
  reflexivity.
Defined.

(** ** More on the example components *)


Lemma IsEnabled_true_iff (rs : config.MultiProtoReceiver) :
  config.IsEnabled rs = true <->
  exists k p, config.Protocols rs !! k = Some p /\ config.Disabled p = false.
Proof.
  unfold config.IsEnabled. rewrite IsEnabled_range_true.
  split; intros (k & p & H & Hd); exists k, p; split; try exact Hd.
  - apply elem_of_map_to_list in H. exact H.
  - apply elem_of_map_to_list. exact H.
Qed.

(** X17: setting the entry of one protocol: the receiver is enabled
    exactly when the new entry is not disabled or some other protocol is
    not disabled. *)
Theorem IsEnabled_insert (typeVal nameVal : string)
    (protocols : gmap string config.MultiProtoReceiverOneCfg) (k : string)
    (p : config.MultiProtoReceiverOneCfg) :
  config.IsEnabled
    {| config.TypeVal := typeVal; config.NameVal := nameVal;
       config.Protocols := <[k := p]> protocols |}
  = negb (config.Disabled p)
    || config.IsEnabled
         {| config.TypeVal := typeVal; config.NameVal := nameVal;
            config.Protocols := delete k protocols |}.
Proof.
  apply eq_true_iff_eq. rewrite orb_true_iff, negb_true_iff.
  rewrite !IsEnabled_true_iff. cbn [config.Protocols]. split.
  - intros (k' & p' & Hk & Hd). destruct (decide (k' = k)) as [-> | Hne].
    + rewrite lookup_insert_eq in Hk. inversion Hk; subst. left. exact Hd.
    + rewrite lookup_insert_ne in Hk by congruence.
      right. exists k', p'. split; [|exact Hd].
      rewrite lookup_delete_ne by congruence. exact Hk.
  - intros [Hd | (k' & p' & Hk & Hd)].
    + exists k, p. split; [apply lookup_insert_eq | exact Hd].
    + destruct (decide (k' = k)) as [-> | Hne].
      * rewrite lookup_delete_eq in Hk. discriminate.
      * rewrite lookup_delete_ne in Hk by congruence.
        exists k', p'. split; [|exact Hd].
        rewrite lookup_insert_ne by congruence. exact Hk.
Qed.

(** X18: adding protocols never disables a receiver: if the protocols of
    an enabled receiver are among those of another, the other is enabled
    too. *)
Theorem IsEnabled_monotone (rs rs' : config.MultiProtoReceiver) :
  config.Protocols rs ⊆ config.Protocols rs' ->
  config.IsEnabled rs = true ->
  config.IsEnabled rs' = true.
Proof.
  intros Hsub H. apply IsEnabled_true_iff in H.
  destruct H as (k & p & Hk & Hd).
  apply IsEnabled_true_iff. exists k, p. split; [|exact Hd].
  eapply lookup_weaken; eassumption.
Qed.

Lemma IsEnabled_monotone_witness :
  config.IsEnabled
    (configmodels.CreateDefaultConfig config.MultiProtoReceiverFactoryLit)
  = true.
Proof.
  apply (IsEnabled_monotone
           {| config.TypeVal := EmptyString; config.NameVal := EmptyString;
              config.Protocols :=
                <["http"%string :=
                    {| config.Disabled := false;
                       config.Endpoint := "example.com:8888";
                       config.ExtraSetting := "extra string 1" |}]> ∅ |}).
  - cbn [config.Protocols configmodels.CreateDefaultConfig
           config.MultiProtoReceiverFactory_factory].
    apply insert_subseteq_r; [reflexivity|].
    apply map_subseteq_spec. intros i x Hi. exact Hi.
  - reflexivity.
Defined.

Section ProducerFacts.

Context {Host TC MC : Type}.

Implicit Types (erp : @config.ExampleReceiverProducer TC MC).

Lemma lifecycle_run_cons (host : Host) (c : lifecycle)
    (cs : list lifecycle) erp :
  lifecycle_run host (c :: cs) erp
  = lifecycle_run host cs (lifecycle_step host c erp).
Proof. reflexivity. Qed.

Lemma lifecycle_run_flags (host : Host) (cs : list lifecycle) erp :
  let erp' := lifecycle_run host cs erp in
  config.TraceStarted erp'
  = config.TraceStarted erp || existsb (lifecycle_eqb DoStartTrace) cs
  /\ config.TraceStopped erp'
     = config.TraceStopped erp || existsb (lifecycle_eqb DoStopTrace) cs
  /\ config.MetricsStarted erp'
     = config.MetricsStarted erp || existsb (lifecycle_eqb DoStartMetrics) cs
  /\ config.MetricsStopped erp'
     = config.MetricsStopped erp || existsb (lifecycle_eqb DoStopMetrics) cs
  /\ config.TraceConsumer erp' = config.TraceConsumer erp
  /\ config.MetricsConsumer erp' = config.MetricsConsumer erp.
Proof.
  cbv zeta. revert erp. induction cs as [|c cs IH]; intros erp.
  - cbn. rewrite !orb_false_r. repeat split.
  - rewrite lifecycle_run_cons.
    destruct (IH (lifecycle_step host c erp))
      as (H1 & H2 & H3 & H4 & H5 & H6).
    rewrite H1, H2, H3, H4, H5, H6.
    destruct c; cbn;
      rewrite ?orb_true_r, ?orb_false_r, ?orb_true_l, ?orb_false_l;
      repeat split.
Qed.

(** X19: the four flags of a producer only ever rise: after any sequence
    of lifecycle calls a flag is set exactly when it was set before or its
    call occurs in the sequence (a stop does not clear the started flag,
    nor a start the stopped flag), trace calls leave the metrics flags
    alone and conversely, and the two consumers are never replaced. *)
Theorem lifecycle_flags_only_rise (host : Host) (cs : list lifecycle) erp :
  let erp' := lifecycle_run host cs erp in
  config.TraceStarted erp'
  = config.TraceStarted erp || existsb (lifecycle_eqb DoStartTrace) cs
  /\ config.TraceStopped erp'
     = config.TraceStopped erp || existsb (lifecycle_eqb DoStopTrace) cs
  /\ config.MetricsStarted erp'
     = config.MetricsStarted erp || existsb (lifecycle_eqb DoStartMetrics) cs
  /\ config.MetricsStopped erp'
     = config.MetricsStopped erp || existsb (lifecycle_eqb DoStopMetrics) cs
  /\ config.TraceConsumer erp' = config.TraceConsumer erp
  /\ config.MetricsConsumer erp' = config.MetricsConsumer erp.
Proof. apply lifecycle_run_flags. Qed.


End ProducerFacts.

Section ConsumerFacts.

Context {TraceData MetricsData : Type}.

Implicit Types (exp : @config.ExampleExporterConsumer TraceData MetricsData).

(** X20: an example exporter keeps every batch it consumes: after any
    sequence of trace and metrics batches its traces are the ones it had
    followed by the trace batches in the order they came, its metrics
    likewise, and consuming never marks it as shut down. *)
Theorem consume_all_stores_in_order (c : Context)
    (batches : list (TraceData + MetricsData)) exp :
  config.Traces (consume_all c batches exp)
  = config.Traces exp ++ traces_of batches
  /\ config.Metrics (consume_all c batches exp)
     = config.Metrics exp ++ metrics_of batches
  /\ config.ExampleExporterConsumer_ExporterShutdown
       (consume_all c batches exp)
     = config.ExampleExporterConsumer_ExporterShutdown exp.
Proof.
  revert exp. induction batches as [|batch batches IH]; intros exp.
  - cbn. rewrite !app_nil_r. repeat split.
  - destruct batch as [td | md].
    + change (consume_all c (inl td :: batches) exp)
        with (consume_all c batches (fst (config.ConsumeTraceData c td exp))).
      destruct (IH (fst (config.ConsumeTraceData c td exp)))
        as (H1 & H2 & H3).
      rewrite H1, H2, H3. cbn. rewrite <- ?app_assoc. repeat split.
    + change (consume_all c (inr md :: batches) exp)
        with (consume_all c batches
                (fst (config.ConsumeMetricsData_ c md exp))).
      destruct (IH (fst (config.ConsumeMetricsData_ c md exp)))
        as (H1 & H2 & H3).
      rewrite H1, H2, H3. cbn. rewrite <- ?app_assoc. repeat split.
Qed.

End ConsumerFacts.

Section RegistrationFacts.

Variable extension_Build :
  list config.ExampleExtensionFactory
  -> option (gmap string config.ExampleExtensionFactory) * option error.
Variable receiver_Build :
  list config.ReceiverFactory
  -> option (gmap string config.ReceiverFactory) * option error.
Variable exporter_Build :
  list config.ExampleExporterFactory
  -> option (gmap string config.ExampleExporterFactory) * option error.
Variable processor_Build :
  list config.ExampleProcessorFactory
  -> option (gmap string config.ExampleProcessorFactory) * option error.

(** X21: [ExampleComponents] builds the extensions, the receivers, the
    exporters and the processors in this order and stops at the first
    build that fails: it returns no error exactly when the four builds
    succeed, and then the four maps are the ones built; otherwise the
    error is the one of the first failing build, and the maps of the
    kinds that come after it are left nil. *)
Theorem ExampleComponents_first_failure :
  let ext := extension_Build [config.ExampleExtensionFactoryLit] in
  let rcv :=
    receiver_Build
      [config.IsExampleReceiverFactory config.ExampleReceiverFactoryLit;
       config.IsMultiProtoReceiverFactory
         config.MultiProtoReceiverFactoryLit] in
  let exp := exporter_Build [config.ExampleExporterFactoryLit] in
  let prc := processor_Build [config.ExampleProcessorFactoryLit] in
  let result :=
    config.ExampleComponents extension_Build receiver_Build exporter_Build
      processor_Build in
  (snd result = None <->
   snd ext = None /\ snd rcv = None /\ snd exp = None /\ snd prc = None)
  /\ (snd result = None ->
      fst result
      = {| config.Receivers := fst rcv; config.Processors := fst prc;
           config.Exporters := fst exp; config.Extensions := fst ext |})
  /\ (snd ext <> None ->
      result
      = ({| config.Receivers := None; config.Processors := None;
            config.Exporters := None; config.Extensions := fst ext |},
         snd ext))
  /\ (snd ext = None -> snd rcv <> None ->
      result
      = ({| config.Receivers := fst rcv; config.Processors := None;
            config.Exporters := None; config.Extensions := fst ext |},
         snd rcv))
  /\ (snd ext = None -> snd rcv = None -> snd exp <> None ->
      result
      = ({| config.Receivers := fst rcv; config.Processors := None;
            config.Exporters := fst exp; config.Extensions := fst ext |},
         snd exp))
  /\ (snd ext = None -> snd rcv = None -> snd exp = None ->
      result
      = ({| config.Receivers := fst rcv; config.Processors := fst prc;
            config.Exporters := fst exp; config.Extensions := fst ext |},
         snd prc)).
Proof.
  cbv zeta. unfold config.ExampleComponents.
  destruct (extension_Build _) as [ext [e1|]];
    destruct (receiver_Build _) as [rcv [e2|]];
    destruct (exporter_Build _) as [exp [e3|]];
    destruct (processor_Build _) as [prc [e4|]];
    cbn [fst snd];
    repeat split; intros; try reflexivity; try congruence;
    repeat match goal with H : _ /\ _ |- _ => destruct H end;
    congruence.
Qed.

End RegistrationFacts.

(** ** Scrapes that deliver nothing *)

Section EmptyScrapes.

Context `{C : Collaborators}.

Implicit Types (tr : transaction) (w : World).

Lemma AddFast_IsNaN (ls : labels.Labels) (ref t : Z) (v : float) tr w :
  IsNaN v = true -> AddFast ls ref t v tr w = Returned (None, tr, w).
Proof. intros Hnan. unfold AddFast. rewrite Hnan. reflexivity. Qed.

(** X23: a scrape that feeds only NaN values (the stale markers of a
    failed scrape) and then commits is an empty scrape: every call
    returns nil, the transaction stays New and the world is untouched, so
    the consumer receives nothing. *)
Theorem NaN_only_scrape_commits_nothing
    (samples : list (labels.Labels * Z * float)) tr w :
  isNew tr = true ->
  Forall (fun s => IsNaN (snd s) = true) samples ->
  run (adds samples ++ [CallCommit]) tr w
  = Returned (repeat None (S (List.length samples)), tr, w).
Proof.
  intros Hnew Hall. induction Hall as [|[[ls t] v] samples Hv Hall IH].
  - cbn [adds map app run step List.length repeat].
    unfold bind, ret. rewrite (Commit_isNew tr w Hnew). reflexivity.
  - cbn [adds map app run step fst snd]. unfold bind at 1.
    rewrite (AddFast_IsNaN ls 0 t v tr w Hv).
    unfold bind at 1. fold (adds samples). rewrite IH. reflexivity.
Qed.

Lemma step_cancelled (c : call) tr w (e : option error) tr' w' :
  Done (ctx tr) = true ->
  c <> CallCommit ->
  step c tr w = Returned (e, tr', w') ->
  tr' = tr /\ w' = w.
Proof.
  intros Hdone Hc.
  assert (Hadd : forall ls ref t v (r : option error) tr1 w1,
             AddFast ls ref t v tr w = Returned (r, tr1, w1) ->
             tr1 = tr /\ w1 = w).
  { intros ls ref t v r tr1 w1. unfold AddFast.
    destruct (IsNaN v).
    - intros H. inversion H. split; reflexivity.
    - unfold bind, this. rewrite Hdone.
      intros H. inversion H. split; reflexivity. }
  destruct c as [l t v | ls ref t v | | |]; cbn [step].
  - unfold Add, bind, ret.
    destruct (AddFast l 0 t v tr w) as [[[r1 tr1] w1]|] eqn:E;
      [|discriminate].
    intros H. inversion H; subst. apply (Hadd _ _ _ _ _ _ _ E).
  - apply Hadd.
  - congruence.
  - unfold Rollback, ret. intros H. inversion H. split; reflexivity.
  - unfold bind, modify, ret. intros H. inversion H; subst.
    split; [|reflexivity].
    destruct tr as [i [dn] nw sk jb ins jm svc nd mb lg].
    cbn in Hdone. subst dn. reflexivity.
Qed.

(** X24: once the context is cancelled the transaction takes nothing
    more: whatever adds, rollbacks and further cancellations follow, the
    transaction, its builder included, and the world stay as they are. *)
Theorem cancelled_transaction_is_frozen (cs : list call) tr w
    (es : list (option error)) tr' w' :
  Done (ctx tr) = true ->
  no_commit cs ->
  run cs tr w = Returned (es, tr', w') ->
  tr' = tr /\ w' = w.
Proof.
  intros Hdone Hnc. revert es tr' w'.
  induction Hnc as [|c cs Hc Hnc IH]; intros es tr' w'; cbn [run].
  - unfold ret. intros H. inversion H. split; reflexivity.
  - unfold bind at 1.
    destruct (step c tr w) as [[[e tr1] w1]|] eqn:Estep; [|discriminate].
    destruct (step_cancelled _ _ _ _ _ _ Hdone Hc Estep) as [-> ->].
    unfold bind at 1.
    destruct (run cs tr w) as [[[es1 tr2] w2]|] eqn:Erun; [|discriminate].
    unfold ret. intros H. inversion H; subst.
    apply (IH _ _ _ eq_refl).
Qed.

End EmptyScrapes.

Lemma NaN_only_scrape_commits_nothing_witness :
  run (adds [(sample_labels, 1, nan); ([], 2, nan)] ++ [CallCommit])
    (test_transaction false true) test_world
  = Returned ([None; None; None], test_transaction false true, test_world).
Proof.
  apply (@NaN_only_scrape_commits_nothing test_doubles
           [(sample_labels, 1, nan); ([], 2, nan)]
           (test_transaction false true) test_world).
  - reflexivity.
  - repeat constructor.
Defined.

Lemma cancelled_transaction_is_frozen_witness :
  let cs := [CallAddFast sample_labels 0 1 one; CallAdd [] 2 one;
             CallRollback; Cancel; CallAddFast sample_labels 0 3 nan] in
  fst (state_after cs (test_transaction true true) test_world)
  = test_transaction true true
  /\ snd (state_after cs (test_transaction true true) test_world)
     = test_world.
Proof.
  cbv zeta.
  apply (@cancelled_transaction_is_frozen test_doubles
           [CallAddFast sample_labels 0 1 one; CallAdd [] 2 one;
            CallRollback; Cancel; CallAddFast sample_labels 0 3 nan]
           (test_transaction true true) test_world
           [Some errTransactionAborted; Some errTransactionAborted; None;
            None; None]).
  - reflexivity.
  - repeat constructor; discriminate.
  - vm_compute. reflexivity.
Defined.
